(** * cloudfoundry_client.operations.push: the push operation

    A shallow embedding of [PushOperation] (operations/push.py) and the
    properties of its route reconciliation, request building and
    orchestration.

    The module is dynamically typed Python working on JSON-like data
    (manifest entries, platform entities), so the embedding has these
    layers:
    - [Py]: JSON-like values and the Python operations the module applies
      to them (subscript, [in], [.get], truthiness, [==], [len], iteration,
      [%] formatting), with the exceptions they raise;
    - [Platform]: the state of the remote platform and the client calls the
      module issues against it, in a state-and-exception monad;
    - [PushOperation]: the methods of the class, line by line, with
      [urlparse] and [int] as parameters;
    - [CPython]: these two functions as CPython 3 has them;
    - [Scenario]: a small platform to run the methods on;
    - [Spec]: the vocabulary of the properties.
    The properties come last; each one that settles a claim of the
    specification names it (C1 to C10). *)

From Stdlib Require Import ZArith List String Ascii Bool Lia DecimalString.
Import ListNotations.

Set Warnings "-register-all".

Open Scope string_scope.
Open Scope Z_scope.

(* ================================================================== *)
(** * Python values and operations *)
(* ================================================================== *)

Module Py.

(** JSON-like data: what a YAML manifest or a platform response holds.
    A [VDict] keeps its entries in insertion order, as a Python dict does,
    with string keys that are pairwise distinct. *)
Inductive value : Type :=
| VNone
| VBool (b : bool)
| VInt (n : Z)
| VStr (s : string)
| VList (items : list value)
| VDict (entries : list (string * value)).

(** The [raise AssertionError(...)] sites of push.py.  The message of each
    is a fixed text formatted with the offending route, which the
    constructor carries instead.  In the words of the specification:
    [NoSharedDomain] is ConfigurationError, [PortAndPath] and [PortAndHost]
    are ConflictingAttributes, [PortOnNonTcp] is UnsupportedPort,
    [PortMissing] is MissingPort, [NoService] is ServiceNotFound. *)
Inductive assertion : Type :=
| NoSharedDomain                                           (* line 102 *)
| PortAndPath (requested_route : value)                    (* line 122 *)
| PortAndHost (requested_route : value) (domain_name : value)  (* line 125 *)
| PortOnNonTcp (requested_route : value)                   (* line 130 *)
| PortMissing (requested_route : value)                    (* line 132 *)
| InvalidRouteFormat (requested_route : value)             (* line 157 *)
| DomainNotFound (route : string)                          (* line 175 *)
| NoService (service_instance : value).                    (* line 184 *)

(** Exceptions.  [TypeError] stands for every failure of dynamic typing
    (a subscript, [len], [in] or iteration on a value that does not support
    it); [NotFound] and [InvalidRequest] are raised by the platform client. *)
Inductive exn : Type :=
| KeyError (key : string)
| TypeError (what : string)
| ValueError (what : string)
| AttributeError (name : string)
| IOError (path : string)
| NotImplementedError (msg : string)
| AssertionError (a : assertion)
| NotFound (what : string)
| InvalidRequest (what : string).

Inductive result (A : Type) : Type :=
| Ok (a : A)
| Raise (e : exn).
Arguments Ok {A} a.
Arguments Raise {A} e.

Definition rbind {A B} (r : result A) (k : A -> result B) : result B :=
  match r with
  | Ok a => k a
  | Raise e => Raise e
  end.

Declare Scope py_scope.
Delimit Scope py_scope with py.
Notation "x <-? r ;; k" := (rbind r (fun x => k))
  (at level 61, r at next level, right associativity) : py_scope.
Notation "' pat <-? r ;; k" := (rbind r (fun x => match x with pat => k end))
  (at level 61, pat pattern, r at next level, right associativity) : py_scope.
Open Scope py_scope.

(** ** Dictionaries *)

Fixpoint assoc_get {A} (k : string) (d : list (string * A)) : option A :=
  match d with
  | [] => None
  | (k', v) :: d' => if String.eqb k k' then Some v else assoc_get k d'
  end.

(** [d[k] = v]: the entry is replaced in place, or appended. *)
Fixpoint assoc_set {A} (k : string) (v : A) (d : list (string * A))
  : list (string * A) :=
  match d with
  | [] => [(k, v)]
  | (k', v') :: d' =>
      if String.eqb k k' then (k, v) :: d' else (k', v') :: assoc_set k v d'
  end.

Fixpoint assoc_del {A} (k : string) (d : list (string * A))
  : list (string * A) :=
  match d with
  | [] => []
  | (k', v') :: d' =>
      if String.eqb k k' then d' else (k', v') :: assoc_del k d'
  end.

(** [d.update(other)] *)
Definition assoc_update {A} (d other : list (string * A))
  : list (string * A) :=
  fold_left (fun acc kv => assoc_set (fst kv) (snd kv) acc) other d.

(** ** Strings *)

(** [s.find(sub)] *)
Definition str_find (sub s : string) : Z :=
  match index 0 sub s with
  | Some n => Z.of_nat n
  | None => -1
  end.

Definition str_len (s : string) : Z := Z.of_nat (String.length s).

(** A slice bound, as Python normalises it: counted from the end when
    negative, then clipped to the string. *)
Definition slice_bound (s : string) (i : Z) : nat :=
  Z.to_nat (Z.min (str_len s) (Z.max 0 (if i <? 0 then i + str_len s else i))).

(** [s[:i]] and [s[i:]] *)
Definition str_upto (s : string) (i : Z) : string :=
  substring 0 (slice_bound s i) s.
Definition str_from (s : string) (i : Z) : string :=
  substring (slice_bound s i) (String.length s - slice_bound s i) s.

(** [sub in s] on strings *)
Definition str_contains (sub s : string) : bool :=
  match index 0 sub s with
  | Some _ => true
  | None => false
  end.

(** ['%d' % n] *)
Definition str_of_Z (n : Z) : string := NilEmpty.string_of_int (Z.to_int n).

(** ** Operations on values *)

Definition is_none (v : value) : bool :=
  match v with
  | VNone => true
  | _ => false
  end.

(** Truth value of [v] in a condition. *)
Definition truthy (v : value) : bool :=
  match v with
  | VNone => false
  | VBool b => b
  | VInt n => negb (n =? 0)
  | VStr s => negb (String.eqb s "")
  | VList l => match l with [] => false | _ => true end
  | VDict d => match d with [] => false | _ => true end
  end.

(** [a == b]: [bool] is a subtype of [int]; lists compare elementwise and
    dicts entry by entry whatever their order. *)
Fixpoint py_eq (a b : value) {struct a} : bool :=
  match a, b with
  | VNone, VNone => true
  | VBool x, VBool y => Bool.eqb x y
  | VBool x, VInt y => Z.b2z x =? y
  | VInt x, VBool y => x =? Z.b2z y
  | VInt x, VInt y => x =? y
  | VStr x, VStr y => String.eqb x y
  | VList xs, VList ys =>
      (fix all2 (xs ys : list value) {struct xs} : bool :=
         match xs, ys with
         | [], [] => true
         | x :: xs', y :: ys' => py_eq x y && all2 xs' ys'
         | _, _ => false
         end) xs ys
  | VDict xs, VDict ys =>
      (List.length xs =? List.length ys)%nat &&
      (fix sub (xs : list (string * value)) {struct xs} : bool :=
         match xs with
         | [] => true
         | (k, x) :: xs' =>
             match assoc_get k ys with
             | Some y => py_eq x y
             | None => false
             end && sub xs'
         end) xs
  | _, _ => false
  end.

(** [o[k]] for a string [k] *)
Definition getitem (o : value) (k : string) : result value :=
  match o with
  | VDict d =>
      match assoc_get k d with
      | Some v => Ok v
      | None => Raise (KeyError k)
      end
  | VStr _ => Raise (TypeError "string indices must be integers")
  | VList _ => Raise (TypeError "list indices must be integers")
  | _ => Raise (TypeError "object is not subscriptable")
  end.

(** [o.get(k, default)] *)
Definition get (o : value) (k : string) (default : value) : result value :=
  match o with
  | VDict d =>
      match assoc_get k d with
      | Some v => Ok v
      | None => Ok default
      end
  | _ => Raise (AttributeError "get")
  end.

(** [k in o] for a string [k] *)
Definition contains (k : string) (o : value) : result bool :=
  match o with
  | VDict d =>
      match assoc_get k d with
      | Some _ => Ok true
      | None => Ok false
      end
  | VStr s => Ok (str_contains k s)
  | VList l => Ok (existsb (fun x => py_eq x (VStr k)) l)
  | _ => Raise (TypeError "argument is not iterable")
  end.

(** [len(o)] *)
Definition len (o : value) : result Z :=
  match o with
  | VStr s => Ok (str_len s)
  | VList l => Ok (Z.of_nat (List.length l))
  | VDict d => Ok (Z.of_nat (List.length d))
  | _ => Raise (TypeError "object has no len()")
  end.

(** The elements [for x in o] runs over: a dict yields its keys and a
    string its characters. *)
Definition iter (o : value) : result (list value) :=
  match o with
  | VList l => Ok l
  | VDict d => Ok (map (fun kv => VStr (fst kv)) d)
  | VStr s =>
      Ok (map (fun c => VStr (String c EmptyString)) (list_ascii_of_string s))
  | _ => Raise (TypeError "object is not iterable")
  end.

(** [any(g)] over a generator: the elements are computed one by one, up to
    the first that is true. *)
Fixpoint any (g : list (result value)) : result bool :=
  match g with
  | [] => Ok false
  | e :: g' =>
      v <-? e ;;
      if truthy v then Ok true else any g'
  end.

(** ** Formatting *)

Definition squote : ascii := ascii_of_nat 39.
Definition dquote : ascii := ascii_of_nat 34.
Definition backslash : ascii := ascii_of_nat 92.

Definition hex_digit (n : nat) : ascii :=
  nth n (list_ascii_of_string "0123456789abcdef") "0"%char.

(** One character of [repr(s)] inside the quotes [q]. *)
Definition repr_char (q c : ascii) : string :=
  let n := nat_of_ascii c in
  if Ascii.eqb c backslash then "\\"
  else if Ascii.eqb c q then String backslash (String q EmptyString)
  else if (n =? 10)%nat then "\n"
  else if (n =? 13)%nat then "\r"
  else if (n =? 9)%nat then "\t"
  else if ((n <? 32) || (n =? 127))%nat then
    "\x" ++ String (hex_digit (n / 16))
              (String (hex_digit (n mod 16)) EmptyString)
  else String c EmptyString.

(** [repr(s)] of a string: single quotes, unless the string has a single
    quote and no double quote. *)
Definition repr_str (s : string) : string :=
  let cs := list_ascii_of_string s in
  let q := if existsb (Ascii.eqb squote) cs
              && negb (existsb (Ascii.eqb dquote) cs)
           then dquote else squote in
  String q (String.concat "" (map (repr_char q) cs) ++ String q EmptyString).

Fixpoint repr (v : value) : string :=
  match v with
  | VNone => "None"
  | VBool true => "True"
  | VBool false => "False"
  | VInt n => str_of_Z n
  | VStr s => repr_str s
  | VList l => "[" ++ String.concat ", " (map repr l) ++ "]"
  | VDict d =>
      "{" ++ String.concat ", "
               (map (fun kv => match kv with
                               | (k, x) => repr_str k ++ ": " ++ repr x
                               end) d) ++ "}"
  end.

(** [str(v)], what ['%s' % v] prints. *)
Definition str (v : value) : string :=
  match v with
  | VStr s => s
  | _ => repr v
  end.

End Py.

(* ================================================================== *)
(** * The platform and its client *)
(* ================================================================== *)

Module Platform.
Import Py.

(** A remote resource, as the client returns it: a generated id under
    [metadata] and its attributes under [entity]. *)
Record resource : Type := { guid : string; entity : list (string * value) }.

Definition to_json (r : resource) : value :=
  VDict [("metadata", VDict [("guid", VStr (guid r))]);
         ("entity", VDict (entity r))].

(** The calls of the client that change the platform. *)
Inductive call : Type :=
| apps_create (request : value)
| apps_update (application_guid : value) (request : list (string * value))
| apps_associate_route (application_guid route_guid : value)
| apps_remove_route (application_guid route_guid : value)
| apps_stop
| apps_start
| routes_create_tcp_route (domain_guid space_guid port : value)
| routes_create_host_route (domain_guid space_guid host path : value)
| service_bindings_create (application_guid instance_guid : value).

(** What a push only reads. *)
Record catalog : Type := {
  clock : Z;                                   (* int(time.time()) *)
  manifests : list (string * list value);      (* loaded manifest files *)
  spaces : list resource;                      (* organization_guid *)
  organizations : list resource;
  stacks : list resource;                      (* name *)
  shared_domains : list resource;     (* name, internal, router_group_type *)
  private_domains : list resource;    (* name, owning_organization_guid *)
  service_instances : list resource            (* name, space_guid *)
}.

Record platform : Type := {
  known : catalog;
  applications : list resource;                (* name, space_guid, ... *)
  routes : list resource;       (* domain_guid, space_guid, host, path, port *)
  route_mappings : list (string * string);     (* application id, route id *)
  service_bindings : list (string * string);   (* application id, instance id *)
  generated : nat;                             (* ids handed out so far *)
  log : list call                              (* calls issued, oldest first *)
}.

(** Client code: it reads and changes the platform, and returns or raises.
    What was done before an exception stays done. *)
Definition M (A : Type) : Type := platform -> result A * platform.

Definition ret {A} (a : A) : M A := fun p => (Ok a, p).
Definition raise {A} (e : exn) : M A := fun p => (Raise e, p).
Definition lift {A} (r : result A) : M A := fun p => (r, p).
Definition bind {A B} (m : M A) (k : A -> M B) : M B :=
  fun p =>
    match m p with
    | (Ok a, p') => k a p'
    | (Raise e, p') => (Raise e, p')
    end.

Declare Scope m_scope.
Delimit Scope m_scope with m.
Notation "x <- m ;; k" := (bind m (fun x => k))
  (at level 61, m at next level, right associativity) : m_scope.
Notation "' pat <- m ;; k" := (bind m (fun x => match x with pat => k end))
  (at level 61, pat pattern, m at next level, right associativity) : m_scope.
Notation "m ;; k" := (bind m (fun _ => k))
  (at level 61, right associativity) : m_scope.
Open Scope m_scope.

(** [for x in xs: body(x)] *)
Fixpoint for_each {A} (xs : list A) (body : A -> M unit) : M unit :=
  match xs with
  | [] => ret tt
  | x :: xs' => body x ;; for_each xs' body
  end.

Definition read {A} (f : platform -> A) : M A := fun p => (Ok (f p), p).

Definition record (c : call) : M unit :=
  fun p => (Ok tt, {| known := known p; applications := applications p;
                      routes := routes p; route_mappings := route_mappings p;
                      service_bindings := service_bindings p;
                      generated := generated p; log := log p ++ [c] |}).

Definition set_applications (l : list resource) : M unit :=
  fun p => (Ok tt, {| known := known p; applications := l;
                      routes := routes p; route_mappings := route_mappings p;
                      service_bindings := service_bindings p;
                      generated := generated p; log := log p |}).

Definition set_routes (l : list resource) : M unit :=
  fun p => (Ok tt, {| known := known p; applications := applications p;
                      routes := l; route_mappings := route_mappings p;
                      service_bindings := service_bindings p;
                      generated := generated p; log := log p |}).

Definition set_route_mappings (l : list (string * string)) : M unit :=
  fun p => (Ok tt, {| known := known p; applications := applications p;
                      routes := routes p; route_mappings := l;
                      service_bindings := service_bindings p;
                      generated := generated p; log := log p |}).

Definition set_service_bindings (l : list (string * string)) : M unit :=
  fun p => (Ok tt, {| known := known p; applications := applications p;
                      routes := routes p; route_mappings := route_mappings p;
                      service_bindings := l;
                      generated := generated p; log := log p |}).

(** A new id. *)
Definition fresh_guid : M string :=
  fun p => (Ok ("guid-" ++ str_of_Z (Z.of_nat (generated p))),
            {| known := known p; applications := applications p;
               routes := routes p; route_mappings := route_mappings p;
               service_bindings := service_bindings p;
               generated := S (generated p); log := log p |}).

(** ** The client

    Modelled from the spec: the platform client ([client.spaces],
    [client.apps], [client.stacks], [client.routes],
    [client.shared_domains], [client.service_bindings]), the entity
    methods ([app.routes()], [space.organization()],
    [space.service_instances()], [organization.private_domains]) and
    [ManifestReader] are collaborators that push.py calls and does not
    define.  Lookups answer from the platform state; the calls that change
    the platform are appended to [log] as they are issued. *)

(** An id passed to the client has to be a string. *)
Definition as_guid (v : value) : result string :=
  match v with
  | VStr s => Ok s
  | _ => Raise (InvalidRequest "guid")
  end.

(** The id of the entity object a method is called on; an object that is
    no entity does not have the method. *)
Definition receiver (method : string) (o : value) : result string :=
  match o with
  | VDict d =>
      match assoc_get "metadata" d with
      | Some (VDict m) =>
          match assoc_get "guid" m with
          | Some (VStr g) => Ok g
          | _ => Raise (AttributeError method)
          end
      | _ => Raise (AttributeError method)
      end
  | _ => Raise (AttributeError method)
  end.

(** [r] has every attribute of [filters], each with an equal value. *)
Definition matches (filters : list (string * value)) (r : resource) : bool :=
  forallb (fun f => match assoc_get (fst f) (entity r) with
                    | Some v => py_eq v (snd f)
                    | None => false
                    end) filters.

Definition has_guid (g : string) (r : resource) : bool := String.eqb (guid r) g.

(** Modelled from the spec:
    [ManifestReader.load_application_manifests(path)]. *)
Definition load_application_manifests (path : string) : M (list value) :=
  fun p =>
    match assoc_get path (manifests (known p)) with
    | Some l => (Ok l, p)
    | None => (Raise (IOError path), p)
    end.

(** [int(time.time())]: the clock of the platform, in whole seconds. *)
Definition time_seconds : M Z := read (fun p => clock (known p)).

(** Modelled from the spec: [client.spaces.get(space_id)] *)
Definition spaces_get (space_id : value) : M value :=
  g <- lift (as_guid space_id) ;;
  l <- read (fun p => spaces (known p)) ;;
  match find (has_guid g) l with
  | Some r => ret (to_json r)
  | None => raise (NotFound "space")
  end.

(** Modelled from the spec: [space.organization()] *)
Definition space_organization (space : value) : M value :=
  _ <- lift (receiver "organization" space) ;;
  e <- lift (getitem space "entity") ;;
  o <- lift (getitem e "organization_guid") ;;
  g <- lift (as_guid o) ;;
  l <- read (fun p => organizations (known p)) ;;
  match find (has_guid g) l with
  | Some r => ret (to_json r)
  | None => raise (NotFound "organization")
  end.

(** Modelled from the spec: [organization.private_domains.list()] *)
Definition organization_private_domains (organization : value)
  : M (list value) :=
  g <- lift (receiver "private_domains" organization) ;;
  l <- read (fun p => private_domains (known p)) ;;
  ret (map to_json
         (filter (matches [("owning_organization_guid", VStr g)]) l)).

(** Modelled from the spec: [organization.shared_domains.list()] *)
Definition organization_shared_domains (organization : value)
  : M (list value) :=
  _ <- lift (receiver "shared_domains" organization) ;;
  l <- read (fun p => shared_domains (known p)) ;;
  ret (map to_json l).

(** Modelled from the spec: [client.shared_domains.list()] *)
Definition shared_domains_list : M (list value) :=
  l <- read (fun p => shared_domains (known p)) ;;
  ret (map to_json l).

(** Modelled from the spec:
    [client.apps.get_first(name=..., space_guid=...)] is the first
    application with that name in that space, [None] when there is none
    (specification, 4.2: no match leads to a creation). *)
Definition apps_get_first (name space_guid : value) : M value :=
  l <- read applications ;;
  match find (matches [("name", name); ("space_guid", space_guid)]) l with
  | Some r => ret (to_json r)
  | None => ret VNone
  end.

(** Modelled from the spec: [client.stacks.get_first(name=...)], the stack
    manager, is not part of push.py; the specification (4.1) resolves a
    stack by name and has the lookup fail with NotFound when no stack
    matches. *)
Definition stacks_get_first (name : value) : M value :=
  l <- read (fun p => stacks (known p)) ;;
  match find (matches [("name", name)]) l with
  | Some r => ret (to_json r)
  | None => raise (NotFound "stack")
  end.

(** The application of id [a] is associated to the route [r]. *)
Definition mapped (ms : list (string * string)) (a : string) (r : resource)
  : bool :=
  existsb (fun m => String.eqb (fst m) a && String.eqb (snd m) (guid r)) ms.

(** Modelled from the spec: [app.routes()], the routes associated to the
    application. *)
Definition app_routes (app : value) : M (list value) :=
  a <- lift (receiver "routes" app) ;;
  rs <- read routes ;;
  ms <- read route_mappings ;;
  ret (map to_json (filter (mapped ms a) rs)).

(** Modelled from the spec: [client.apps.create(request)] *)
Definition client_apps_create (request : value) : M value :=
  record (apps_create request) ;;
  match request with
  | VDict d =>
      g <- fresh_guid ;;
      l <- read applications ;;
      set_applications (l ++ [{| guid := g; entity := d |}]) ;;
      ret (to_json {| guid := g; entity := d |})
  | _ => raise (InvalidRequest "request")
  end.

(** Modelled from the spec: [client.apps.update(guid, **request)] *)
Definition client_apps_update (application_guid : value)
    (request : list (string * value)) : M value :=
  record (apps_update application_guid request) ;;
  g <- lift (as_guid application_guid) ;;
  l <- read applications ;;
  match find (has_guid g) l with
  | Some r =>
      let r' := {| guid := g; entity := assoc_update (entity r) request |} in
      set_applications
        (map (fun x => if has_guid g x then r' else x) l) ;;
      ret (to_json r')
  | None => raise (NotFound "application")
  end.

(** Modelled from the spec:
    [client.apps.associate_route(application_guid, route_guid)]. *)
Definition client_apps_associate_route (application_guid route_guid : value)
  : M unit :=
  record (apps_associate_route application_guid route_guid) ;;
  a <- lift (as_guid application_guid) ;;
  r <- lift (as_guid route_guid) ;;
  ms <- read route_mappings ;;
  set_route_mappings (ms ++ [(a, r)]).

(** Modelled from the spec:
    [client.apps.remove_route(application_guid, route_guid)]: the
    association goes, the route stays. *)
Definition client_apps_remove_route (application_guid route_guid : value)
  : M unit :=
  record (apps_remove_route application_guid route_guid) ;;
  a <- lift (as_guid application_guid) ;;
  r <- lift (as_guid route_guid) ;;
  ms <- read route_mappings ;;
  set_route_mappings
    (filter (fun m => negb (String.eqb (fst m) a && String.eqb (snd m) r)) ms).

(** Modelled from the spec: [client.apps.stop()] and [client.apps.start()] *)
Definition client_apps_stop : M unit := record apps_stop.
Definition client_apps_start : M unit := record apps_start.

Definition new_route (domain_guid space_guid host path port : value)
  : M value :=
  g <- fresh_guid ;;
  l <- read routes ;;
  let r := {| guid := g;
              entity := [("domain_guid", domain_guid);
                         ("space_guid", space_guid);
                         ("host", host); ("path", path); ("port", port)] |} in
  set_routes (l ++ [r]) ;;
  ret (to_json r).

(** Modelled from the spec:
    [client.routes.create_tcp_route(domain_guid, space_guid, port=None)]:
    without a port the platform picks one, which the model leaves open
    (the route keeps [None]). *)
Definition client_routes_create_tcp_route (domain_guid space_guid port : value)
  : M value :=
  record (routes_create_tcp_route domain_guid space_guid port) ;;
  new_route domain_guid space_guid (VStr "") (VStr "") port.

(** Modelled from the spec:
    [client.routes.create_host_route(domain_guid, space_guid, host,
    path='')]. *)
Definition client_routes_create_host_route
    (domain_guid space_guid host path : value) : M value :=
  record (routes_create_host_route domain_guid space_guid host path) ;;
  new_route domain_guid space_guid host path VNone.

(** Modelled from the spec: [next(space.service_instances(name=...), None)] *)
Definition space_first_service_instance (space name : value) : M value :=
  g <- lift (receiver "service_instances" space) ;;
  l <- read (fun p => service_instances (known p)) ;;
  match find (matches [("name", name); ("space_guid", VStr g)]) l with
  | Some r => ret (to_json r)
  | None => ret VNone
  end.

(** Modelled from the spec:
    [client.service_bindings.create(application_guid, instance_guid)]. *)
Definition client_service_bindings_create
    (application_guid instance_guid : value) : M unit :=
  record (service_bindings_create application_guid instance_guid) ;;
  a <- lift (as_guid application_guid) ;;
  i <- lift (as_guid instance_guid) ;;
  l <- read service_bindings ;;
  set_service_bindings (l ++ [(a, i)]).

End Platform.

(* ================================================================== *)
(** * PushOperation *)
(* ================================================================== *)

Module PushOperation.
Import Py Platform.

(** The fields of [urlparse(...)] that push.py reads. *)
Record parse_result : Type := { netloc : string; path : string }.

(** [o['metadata']['guid']] *)
Definition guid_of (o : value) : result value :=
  m <-? getitem o "metadata" ;;
  getitem m "guid".

(** [o.metadata.guid]: an attribute of a response object is its item. *)
Definition getattr (o : value) (k : string) : result value :=
  match o with
  | VDict d =>
      match assoc_get k d with
      | Some v => Ok v
      | None => Raise (AttributeError k)
      end
  | _ => Raise (AttributeError k)
  end.

(** [d.get(k)] on a dict built locally *)
Definition dget (d : list (string * value)) (k : string) : value :=
  match assoc_get k d with
  | Some v => v
  | None => VNone
  end.

(** [d.update(other)]: [other] is a mapping.  Anything else is a failure of
    dynamic typing here, also the sequences of pairs Python would take. *)
Definition dict_update (d : list (string * value)) (other : value)
  : result (list (string * value)) :=
  match other with
  | VDict o => Ok (assoc_update d o)
  | _ => Raise (TypeError "object is not a mapping")
  end.

(** [domain['entity'].get('router_group_type')] *)
Definition router_group_type (domain : value) : result value :=
  e <-? getitem domain "entity" ;;
  get e "router_group_type" VNone.

(** [{domain['entity']['name']: domain for domain in l}]: a later domain
    replaces an earlier one of the same name.  The table is only searched
    for strings, so a name that is no string is left out; a name that
    cannot be hashed is an error. *)
Fixpoint by_name (l : list value) (acc : list (string * value))
  : result (list (string * value)) :=
  match l with
  | [] => Ok acc
  | domain :: l' =>
      e <-? getitem domain "entity" ;;
      n <-? getitem e "name" ;;
      match n with
      | VStr s => by_name l' (assoc_set s domain acc)
      | VList _ | VDict _ => Raise (TypeError "unhashable type")
      | _ => by_name l' acc
      end
  end.

(** Lines 73-80. *)
Definition _merge_environment (app app_manifest : value)
  : result (list (string * value)) :=
  let environment := [] in
  e <-? getitem app "entity" ;;
  has_json <-? contains "environment_json" e ;;
  environment <-?
    (if has_json : bool then
       j <-? getitem e "environment_json" ;;
       dict_update environment j
     else Ok environment) ;;
  has_env <-? contains "env" app_manifest ;;
  if has_env : bool then
    m <-? getitem app_manifest "env" ;;
    dict_update environment m
  else Ok environment.

(** Lines 163-175: the loop over [[private_domains, shared_domains]]. *)
Fixpoint resolve_in (route : string) (scopes : list (list (string * value)))
  : result (value * value * value) :=
  match scopes with
  | [] => Raise (AssertionError (DomainNotFound route))
  | domains :: scopes' =>
      match assoc_get route domains with
      | Some d => Ok (VStr "", VStr route, d)
      | None =>
          let idx := str_find "." route in
          if (0 <? idx) && (idx <? str_len route - 2) then
            let host := str_upto route idx in
            let domain := str_from route (idx + 1) in
            match assoc_get domain domains with
            | Some d => Ok (VStr host, VStr domain, d)
            | None => resolve_in route scopes'
            end
          else resolve_in route scopes'
      end
  end.

Definition _resolve_domain (route : string)
    (private_domains shared_domains : list (string * value))
  : result (value * value * value) :=
  resolve_in route [private_domains; shared_domains].

(** Lines 95-100: the first domain that is not internal, [None] without. *)
Fixpoint first_not_internal (l : list value) : result value :=
  match l with
  | [] => Ok VNone
  | domain :: l' =>
      e <-? getitem domain "entity" ;;
      i <-? getitem e "internal" ;;
      if truthy i then first_not_internal l' else Ok domain
  end.

Section Methods.

(** [urlparse] comes from [cloudfoundry_client.imported] and [int] is the
    builtin; both stay parameters of the methods. *)
Variable urlparse : value -> result parse_result.
Variable py_int : string -> result Z.

(** Lines 149-161. *)
Definition _split_route (requested_route : value)
  : result (string * value * string) :=
  r <-? getitem requested_route "route" ;;
  route_parsed <-? urlparse r ;;
  let idx := str_find ":" (netloc route_parsed) in
  '(domain, port) <-?
    (if (0 <? idx) && (idx <? str_len (netloc route_parsed) - 2) then
       port <-? py_int (str_from (netloc route_parsed) (idx + 1)) ;;
       Ok (str_upto (netloc route_parsed) idx, VInt port)
     else if 0 <=? idx then
       Raise (AssertionError (InvalidRouteFormat requested_route))
     else Ok (netloc route_parsed, VNone)) ;;
  Ok (domain, port,
      if String.eqb (path route_parsed) "/" then "" else path route_parsed).

(** Lines 59-71. *)
Definition _build_request_from_manifest (app_manifest : value)
  : M (list (string * value)) :=
  request <- lift (dict_update [] app_manifest) ;;
  has_stack <- lift (contains "stack" app_manifest) ;;
  stack <- (if has_stack : bool then
              name <- lift (getitem app_manifest "stack") ;;
              stacks_get_first name
            else ret VNone) ;;
  request <- (if negb (is_none stack) then
                g <- lift (guid_of stack) ;;
                ret (assoc_set "stack_guid" g request)
              else ret request) ;;
  let docker := dget request "docker" in
  let request := assoc_del "docker" request in
  has_image <- lift (if negb (is_none docker) then contains "image" docker
                     else Ok false) ;;
  if has_image : bool then
    image <- lift (getitem docker "image") ;;
    let request := assoc_set "docker_image" image request in
    let request := assoc_set "diego" (VBool true) request in
    has_username <- lift (contains "username" docker) ;;
    has_password <- lift (if has_username : bool
                          then contains "password" docker else Ok false) ;;
    if has_password : bool then
      username <- lift (getitem docker "username") ;;
      password <- lift (getitem docker "password") ;;
      ret (assoc_set "docker_credentials"
             (VDict [("username", username); ("password", password)]) request)
    else ret request
  else ret request.

(** Lines 44-49. *)
Definition _create_application (space app_manifest : value) : M value :=
  request <- _build_request_from_manifest app_manifest ;;
  g <- lift (guid_of space) ;;
  let request := assoc_set "space_guid" g request in
  let request :=
    if py_eq (dget request "health-check-type") (VStr "http")
       && is_none (dget request "health-check-http-endpoint")
    then assoc_set "health-check-http-endpoint" (VStr "/") request
    else request in
  client_apps_create (VDict request).

(** Lines 51-57. *)
Definition _update_application (app_manifest app : value) : M value :=
  request <- _build_request_from_manifest app_manifest ;;
  environment <- lift (_merge_environment app app_manifest) ;;
  let request := assoc_set "environment_json" (VDict environment) request in
  default_endpoint <- lift
    (if py_eq (dget request "health-check-type") (VStr "http")
        && is_none (dget request "health-check-http-endpoint")
     then
       e <-? getitem app "entity" ;;
       h <-? get e "health_check_http_endpoint" VNone ;;
       Ok (is_none h)
     else Ok false) ;;
  let request :=
    if default_endpoint : bool
    then assoc_set "health-check-http-endpoint" (VStr "/") request
    else request in
  g <- lift (guid_of app) ;;
  client_apps_update g request.

(** Lines 39-42.  The arguments of [_update_application] are passed as
    written there: the application first, the manifest second. *)
Definition _init_application (space app_manifest : value) : M value :=
  name <- lift (getitem app_manifest "name") ;;
  metadata <- lift (getattr space "metadata") ;;
  g <- lift (getattr metadata "guid") ;;
  app <- apps_get_first name g ;;
  if negb (is_none app) then _update_application app app_manifest
  else _create_application space app_manifest.

(** Lines 91-93. *)
Definition _remove_all_routes (app : value) (routes : list value) : M unit :=
  for_each routes (fun route =>
    a <- lift (guid_of app) ;;
    r <- lift (guid_of route) ;;
    client_apps_remove_route a r).

(** Lines 95-114. *)
Definition _build_default_route (space app random_route : value) : M unit :=
  l <- shared_domains_list ;;
  shared_domain <- lift (first_not_internal l) ;;
  if is_none shared_domain then raise (AssertionError NoSharedDomain) else
  t <- lift (router_group_type shared_domain) ;;
  route <-
    (if py_eq t (VStr "tcp") then
       d <- lift (guid_of shared_domain) ;;
       s <- lift (guid_of space) ;;
       client_routes_create_tcp_route d s VNone
     else if truthy random_route then
       d <- lift (guid_of shared_domain) ;;
       s <- lift (guid_of space) ;;
       e <- lift (getitem app "entity") ;;
       name <- lift (getitem e "name") ;;
       now <- time_seconds ;;
       client_routes_create_host_route d s
         (VStr (str name ++ "-" ++ str_of_Z now)) (VStr "")
     else
       d <- lift (guid_of shared_domain) ;;
       s <- lift (guid_of space) ;;
       e <- lift (getitem app "entity") ;;
       name <- lift (getitem e "name") ;;
       client_routes_create_host_route d s name (VStr "")) ;;
  a <- lift (guid_of app) ;;
  r <- lift (guid_of route) ;;
  client_apps_associate_route a r.

(** Lines 134-135 and 140-141: the elements of the generator given to
    [any], each a list of one boolean. *)
Definition port_matches (domain port : value) (existing_routes : list value)
  : list (result value) :=
  map (fun route =>
         e <-? getitem route "entity" ;;
         rd <-? getitem e "domain_guid" ;;
         d <-? guid_of domain ;;
         if py_eq rd d then
           e' <-? getitem route "entity" ;;
           rp <-? getitem e' "port" ;;
           Ok (VList [VBool (py_eq rp port)])
         else Ok (VList [VBool false])) existing_routes.

Definition host_matches (domain host : value) (existing_routes : list value)
  : list (result value) :=
  map (fun route =>
         e <-? getitem route "entity" ;;
         rd <-? getitem e "domain_guid" ;;
         d <-? guid_of domain ;;
         if py_eq rd d then
           e' <-? getitem route "entity" ;;
           rh <-? getitem e' "host" ;;
           Ok (VList [VBool (py_eq rh host)])
         else Ok (VList [VBool false])) existing_routes.

(** Lines 120-147: the body of the loop over the requested routes. *)
Definition requested_route_body
    (private_domains shared_domains : list (string * value))
    (space app : value) (existing_routes : list value)
    (requested_route : value) : M unit :=
  '(route, port, path) <- lift (_split_route requested_route) ;;
  if (0 <? str_len path) && negb (is_none port) then
    raise (AssertionError (PortAndPath requested_route))
  else
  '(host, domain_name, domain) <-
     lift (_resolve_domain route private_domains shared_domains) ;;
  if negb (is_none port) && negb (is_none host) then
    raise (AssertionError (PortAndHost requested_route domain_name))
  else
  port_on_other <- lift (if negb (is_none port) then
                           t <-? router_group_type domain ;;
                           Ok (negb (py_eq t (VStr "tcp")))
                         else Ok false) ;;
  route_created <-
    (if port_on_other : bool then
       raise (AssertionError (PortOnNonTcp requested_route))
     else
     t <- lift (router_group_type domain) ;;
     if py_eq t (VStr "tcp") && is_none port then
       raise (AssertionError (PortMissing requested_route))
     else
     t <- lift (router_group_type domain) ;;
     if py_eq t (VStr "tcp") then
       found <- lift (any (port_matches domain port existing_routes)) ;;
       if negb found then
         d <- lift (guid_of domain) ;;
         s <- lift (guid_of space) ;;
         client_routes_create_tcp_route d s port
       else ret VNone
     else
       found <- lift (any (host_matches domain host existing_routes)) ;;
       if negb found then
         d <- lift (guid_of domain_name) ;;
         s <- lift (guid_of space) ;;
         client_routes_create_host_route d s host (VStr path)
       else ret VNone) ;;
  if negb (is_none route_created) then
    a <- lift (guid_of app) ;;
    r <- lift (guid_of route_created) ;;
    client_apps_associate_route a r
  else ret tt.

(** Lines 116-147. *)
Definition _build_new_requested_routes
    (organization space app : value) (existing_routes : list value)
    (requested_routes : value) : M unit :=
  l <- organization_private_domains organization ;;
  private_domains <- lift (by_name l []) ;;
  l <- organization_shared_domains organization ;;
  shared_domains <- lift (by_name l []) ;;
  rs <- lift (iter requested_routes) ;;
  for_each rs (requested_route_body private_domains shared_domains
                 space app existing_routes).

(** Lines 82-89. *)
Definition _route_application (organization space app app_manifest : value)
  : M unit :=
  existing_routes <- app_routes app ;;
  no_route <- lift (get app_manifest "no-route" (VBool false)) ;;
  if truthy no_route then _remove_all_routes app existing_routes
  else
  nothing <- lift
    (declared <-? contains "routes" app_manifest ;;
     none_declared <-? (if negb declared then Ok true
                        else
                          rs <-? get app_manifest "routes" VNone ;;
                          n <-? len rs ;;
                          Ok (n =? 0)) ;;
     Ok (none_declared && (Z.of_nat (List.length existing_routes) =? 0))) ;;
  if nothing : bool then
    random_route <- lift (get app_manifest "random-route" (VBool false)) ;;
    _build_default_route space app random_route
  else
    rs <- lift (getitem app_manifest "routes") ;;
    _build_new_requested_routes organization space app existing_routes rs.

(** Lines 177-178. *)
Definition _upload_application (app app_manifest : value) : M unit :=
  raise (NotImplementedError "To be implemented").

(** Lines 180-185. *)
Definition _bind_services (space app app_manifest : value) : M unit :=
  services <- lift (get app_manifest "services" (VList [])) ;;
  names <- lift (iter services) ;;
  for_each names (fun service_name =>
    service_instance <- space_first_service_instance space service_name ;;
    if is_none service_instance then
      raise (AssertionError (NoService service_instance))
    else
      a <- lift (guid_of app) ;;
      i <- lift (guid_of service_instance) ;;
      client_service_bindings_create a i).

(** Lines 187-189. *)
Definition _restart_application : M unit :=
  client_apps_stop ;;
  client_apps_start.

(** Lines 21-24. *)
Definition _retrieve_space_and_organization (space_id : value)
  : M (value * value) :=
  space <- spaces_get space_id ;;
  organization <- space_organization space ;;
  ret (organization, space).

(** Lines 26-31. *)
Definition _push_application (organization space app_manifest : value)
  : M unit :=
  app <- _init_application space app_manifest ;;
  _route_application organization space app app_manifest ;;
  _upload_application app app_manifest ;;
  _bind_services space app app_manifest ;;
  _restart_application.

(** Lines 33-37. *)
Definition _push_docker (organization space app_manifest : value) : M unit :=
  app <- _init_application space app_manifest ;;
  _route_application organization space app app_manifest ;;
  _bind_services space app app_manifest ;;
  _restart_application.

(** Lines 15-19: the body of the loop over the manifest entries. *)
Definition push_entry (organization space app_manifest : value) : M unit :=
  has_path <- lift (contains "path" app_manifest) ;;
  if has_path : bool then _push_application organization space app_manifest
  else
    has_docker <- lift (contains "docker" app_manifest) ;;
    if has_docker : bool then _push_docker organization space app_manifest
    else ret tt.

(** Lines 11-19. *)
Definition push (space_id : value) (manifest_path : string) : M unit :=
  app_manifests <- load_application_manifests manifest_path ;;
  '(organization, space) <- _retrieve_space_and_organization space_id ;;
  for_each app_manifests (push_entry organization space).

End Methods.

End PushOperation.

(* ================================================================== *)
(** * The library functions of CPython 3 *)
(* ================================================================== *)

(** [urllib.parse.urlparse] and [int], for running the methods on concrete
    routes.  The model covers ASCII text; a network location with square
    brackets (an IPv6 literal) is outside it and reported as invalid. *)
Module CPython.
Import Py PushOperation.

Definition is_digit (c : ascii) : bool :=
  let n := nat_of_ascii c in ((48 <=? n) && (n <=? 57))%nat.
Definition is_alpha (c : ascii) : bool :=
  let n := nat_of_ascii c in
  (((65 <=? n) && (n <=? 90)) || ((97 <=? n) && (n <=? 122)))%nat.
Definition is_scheme_char (c : ascii) : bool :=
  is_alpha c || is_digit c
  || Ascii.eqb c "+"%char || Ascii.eqb c "-"%char || Ascii.eqb c "."%char.
Definition is_space (c : ascii) : bool :=
  let n := nat_of_ascii c in
  ((n =? 32) || ((9 <=? n) && (n <=? 13)))%nat.

Definition lower (c : ascii) : ascii :=
  let n := nat_of_ascii c in
  if ((65 <=? n) && (n <=? 90))%nat then ascii_of_nat (n + 32) else c.

Fixpoint drop_while (f : ascii -> bool) (l : list ascii) : list ascii :=
  match l with
  | [] => []
  | c :: l' => if f c then drop_while f l' else l
  end.

(** [s.split(c, 1)] when [c] occurs in [s] *)
Definition cut (c : string) (s : string) : option (string * string) :=
  match index 0 c s with
  | Some n => Some (substring 0 n s,
                    substring (S n) (String.length s - S n) s)
  | None => None
  end.

(** The end of the network location: the first of [/], [?], [#] from
    position 2 on, or the end of the text. *)
Fixpoint netloc_length (l : list ascii) : nat :=
  match l with
  | [] => O
  | c :: l' =>
      if Ascii.eqb c "/"%char || Ascii.eqb c "?"%char || Ascii.eqb c "#"%char
      then O else S (netloc_length l')
  end.

Definition uses_params : list string :=
  [""; "ftp"; "hdl"; "prospero"; "http"; "imap"; "https"; "shttp"; "rtsp";
   "rtspu"; "sip"; "sips"; "mms"; "sftp"; "tel"].

(** [_splitparams(url)]: the text before the first [;] of the last path
    segment. *)
Fixpoint last_slash (l : list ascii) (found k : nat) : nat :=
  match l with
  | [] => found
  | c :: l' => last_slash l' (if Ascii.eqb c "/"%char then k else found) (S k)
  end.

Definition before_params (url : string) : string :=
  match index (last_slash (list_ascii_of_string url) O O) ";" url with
  | Some i => substring 0 i url
  | None => url
  end.

Definition urlsplit (url : string) : result (string * parse_result) :=
  let l := drop_while (fun c => (nat_of_ascii c <=? 32)%nat)
             (list_ascii_of_string url) in
  let l := filter (fun c => negb (let n := nat_of_ascii c in
                                  (n =? 9) || (n =? 10) || (n =? 13))%nat) l in
  let url := string_of_list_ascii l in
  let '(scheme, url) :=
    match index 0 ":" url, l with
    | Some (S i), c :: _ =>
        if is_alpha c && forallb is_scheme_char (firstn (S i) l)
        then (string_of_list_ascii (map lower (firstn (S i) l)),
              substring (S (S i)) (String.length url - S (S i)) url)
        else ("", url)
    | _, _ => ("", url)
    end in
  let '(netloc, url) :=
    if String.eqb (substring 0 2 url) "//" then
      let n := netloc_length (skipn 2 (list_ascii_of_string url)) in
      (substring 2 n url, substring (2 + n) (String.length url - (2 + n)) url)
    else ("", url) in
  if str_contains "[" netloc || str_contains "]" netloc
  then Raise (ValueError "Invalid IPv6 URL")
  else
    let url := match cut "#" url with Some (u, _) => u | None => url end in
    let url := match cut "?" url with Some (u, _) => u | None => url end in
    Ok (scheme, {| netloc := netloc; path := url |}).

Definition urlparse (url : value) : result parse_result :=
  match url with
  | VStr s =>
      '(scheme, r) <-? urlsplit s ;;
      if existsb (String.eqb scheme) uses_params
      then Ok {| netloc := netloc r; path := before_params (path r) |}
      else Ok r
  | _ => Raise (TypeError "urlparse")
  end.

(** [int(s)]: blanks around, a sign, then digits, single underscores
    allowed between them. *)
Fixpoint digits (l : list ascii) (acc : Z) (after_digit : bool) : option Z :=
  match l with
  | [] => if after_digit then Some acc else None
  | c :: l' =>
      if is_digit c then
        digits l' (10 * acc + Z.of_nat (nat_of_ascii c - 48)) true
      else if Ascii.eqb c "_"%char && after_digit then
        match l' with
        | d :: _ => if is_digit d then digits l' acc false else None
        | [] => None
        end
      else None
  end.

Definition int (s : string) : result Z :=
  let l := drop_while is_space (list_ascii_of_string s) in
  let l := rev (drop_while is_space (rev l)) in
  let parsed :=
    match l with
    | c :: l' =>
        if Ascii.eqb c "-"%char then option_map Z.opp (digits l' 0 false)
        else if Ascii.eqb c "+"%char then digits l' 0 false
        else digits l 0 false
    | [] => None
    end in
  match parsed with
  | Some n => Ok n
  | None => Raise (ValueError "invalid literal for int() with base 10")
  end.

End CPython.

(* ================================================================== *)
(** * A small platform to run the methods on *)
(* ================================================================== *)

Module Scenario.
Import Py Platform PushOperation.

Definition tcp_domain : resource :=
  {| guid := "domain-tcp";
     entity := [("name", VStr "tcp-domain.example.com");
                ("internal", VBool false);
                ("router_group_type", VStr "tcp")] |}.

Definition shared_domain : resource :=
  {| guid := "domain-shared";
     entity := [("name", VStr "shared.example.com");
                ("internal", VBool false);
                ("router_group_type", VNone)] |}.

Definition internal_domain : resource :=
  {| guid := "domain-internal";
     entity := [("name", VStr "apps.internal");
                ("internal", VBool true);
                ("router_group_type", VNone)] |}.

Definition organization : resource :=
  {| guid := "org-1"; entity := [("name", VStr "org")] |}.

Definition space : resource :=
  {| guid := "space-1";
     entity := [("name", VStr "dev"); ("organization_guid", VStr "org-1")] |}.

Definition app : resource :=
  {| guid := "app-1";
     entity := [("name", VStr "app"); ("space_guid", VStr "space-1");
                ("environment_json", VDict [("A", VStr "1")])] |}.

Definition stack : resource :=
  {| guid := "stack-1"; entity := [("name", VStr "cflinuxfs3")] |}.

Definition database : resource :=
  {| guid := "service-1";
     entity := [("name", VStr "db"); ("space_guid", VStr "space-1")] |}.

Definition route (g : string) (domain_guid : string) (host : string)
    (port : value) : resource :=
  {| guid := g;
     entity := [("domain_guid", VStr domain_guid);
                ("space_guid", VStr "space-1");
                ("host", VStr host); ("path", VStr ""); ("port", port)] |}.

Definition the_catalog (files : list (string * list value)) : catalog :=
  {| clock := 1700000000;
     manifests := files;
     spaces := [space];
     organizations := [organization];
     stacks := [stack];
     shared_domains := [internal_domain; tcp_domain; shared_domain];
     private_domains := [];
     service_instances := [database] |}.

(** The platform with the given applications, routes and associations, and
    no call issued yet. *)
Definition the_platform (files : list (string * list value))
    (apps : list resource) (rs : list resource)
    (ms : list (string * string)) : platform :=
  {| known := the_catalog files;
     applications := apps;
     routes := rs;
     route_mappings := ms;
     service_bindings := [];
     generated := 0;
     log := [] |}.

Definition requested (route : string) : value := VDict [("route", VStr route)].

(** A manifest entry for the application that declares one route. *)
Definition declaring (route : string) : value :=
  VDict [("name", VStr "app"); ("routes", VList [requested route])].

(** The application exists and has no route. *)
Definition fresh_platform : platform := the_platform [] [app] [] [].

(** The application has a host route and a TCP route on port 4444; the
    host route also serves another application. *)
Definition routed_platform : platform :=
  the_platform [] [app]
    [route "route-1" "domain-shared" "app" VNone;
     route "route-2" "domain-tcp" "" (VInt 4444)]
    [("app-1", "route-1"); ("app-1", "route-2"); ("app-2", "route-1")].

(** The same platform as [fresh_platform], with the shared domains in
    another order: the first that is not internal is no TCP domain. *)
Definition hosting_platform : platform :=
  {| known := {| clock := 1700000000;
                 manifests := [];
                 spaces := [space];
                 organizations := [organization];
                 stacks := [stack];
                 shared_domains := [internal_domain; shared_domain; tcp_domain];
                 private_domains := [];
                 service_instances := [database] |};
     applications := [app];
     routes := [];
     route_mappings := [];
     service_bindings := [];
     generated := 0;
     log := [] |}.

(** A manifest file with one entry. *)
Definition pushing (entry : value) : platform :=
  the_platform [("manifest.yml", [entry])] [] [] [].

Definition docker_entry : value :=
  VDict [("name", VStr "app"); ("docker", VDict [("image", VStr "image")])].

Definition route_application := _route_application CPython.urlparse CPython.int.
Definition run_push := push CPython.urlparse CPython.int.

End Scenario.

(* ================================================================== *)
(** * What the properties speak of *)
(* ================================================================== *)

Module Spec.
Import Py Platform PushOperation.

(** A call that creates a route. *)
Definition is_creation (c : call) : bool :=
  match c with
  | routes_create_tcp_route _ _ _ => true
  | routes_create_host_route _ _ _ _ => true
  | _ => false
  end.

(** The route creations issued so far. *)
Definition creations (p : platform) : list call := filter is_creation (log p).

(** A flag of a manifest entry is set. *)
Definition flag (m : list (string * value)) (k : string) : bool :=
  match assoc_get k m with
  | Some v => truthy v
  | None => false
  end.

(** A manifest entry declares no route: no [routes] key, or an empty list. *)
Definition no_declared_routes (m : list (string * value)) : Prop :=
  assoc_get "routes" m = None \/ assoc_get "routes" m = Some (VList []).

(** A shared domain that is not internal. *)
Definition external (d : resource) : bool :=
  negb (truthy (dget (entity d) "internal")).

(** A shared domain of TCP type. *)
Definition tcp_typed (d : resource) : bool :=
  py_eq (dget (entity d) "router_group_type") (VStr "tcp").

(** The routes associated to the application of id [a]. *)
Definition routes_of (p : platform) (a : string) : list resource :=
  filter (mapped (route_mappings p) a) (routes p).

(** An existing route equals the declared one: same domain and port on a
    TCP domain, same domain and host otherwise. *)
Definition same_route (domain host port : value) (r : value) : bool :=
  match getitem r "entity", guid_of domain, router_group_type domain with
  | Ok (VDict e), Ok d, Ok t =>
      py_eq (dget e "domain_guid") d &&
      (if py_eq t (VStr "tcp") then py_eq (dget e "port") port
       else py_eq (dget e "host") host)
  | _, _, _ => false
  end.

(** The associations left once the application of id [a] is detached from
    the routes [rs]. *)
Definition detach (a : string) (rs : list resource)
    (ms : list (string * string)) : list (string * string) :=
  filter (fun m => negb (String.eqb (fst m) a
                         && existsb (fun r => String.eqb (snd m) (guid r)) rs))
         ms.

(** The platform with other associations and a longer log. *)
Definition with_mappings (p : platform) (ms : list (string * string))
    (calls : list call) : platform :=
  {| known := known p; applications := applications p; routes := routes p;
     route_mappings := ms; service_bindings := service_bindings p;
     generated := generated p; log := log p ++ calls |}.

(** The calls that detach the application of id [a] from the routes [rs]. *)
Definition removals (a : string) (rs : list resource) : list call :=
  map (fun r => apps_remove_route (VStr a) (VStr (guid r))) rs.

(** A shared domain says whether it is internal. *)
Definition has_internal (d : resource) : bool :=
  match assoc_get "internal" (entity d) with
  | Some _ => true
  | None => false
  end.

(** The host of a default route: the name of the application, followed by
    the time in seconds when a random route is asked for. *)
Definition default_host (name : value) (random : bool) (now : Z) : value :=
  if random then VStr (str name ++ "-" ++ str_of_Z now) else name.

(** The call that creates the default route on the domain [d]. *)
Definition default_creation (d space : resource) (host : value) : call :=
  if tcp_typed d
  then routes_create_tcp_route (VStr (guid d)) (VStr (guid space)) VNone
  else routes_create_host_route (VStr (guid d)) (VStr (guid space)) host
         (VStr "").

(** The id the platform gives to the next resource. *)
Definition next_guid (p : platform) : string :=
  "guid-" ++ str_of_Z (Z.of_nat (generated p)).

(** The entries of an optional mapping: none when the key is absent. *)
Definition mapping_or_empty (o : option value)
  : option (list (string * value)) :=
  match o with
  | None => Some []
  | Some (VDict d) => Some d
  | Some _ => None
  end.

(** The instances of the services [names] in the space, in order, up to
    the first name without instance, and whether every name has one. *)
Fixpoint instances_of (instances : list resource) (space : resource)
    (names : list value) : list resource * bool :=
  match names with
  | [] => ([], true)
  | name :: names' =>
      match find (matches [("name", name); ("space_guid", VStr (guid space))])
                 instances with
      | Some i =>
          (i :: fst (instances_of instances space names'),
           snd (instances_of instances space names'))
      | None => ([], false)
      end
  end.

(** The platform with more service bindings and a longer log. *)
Definition with_bindings (p : platform) (bs : list (string * string))
    (calls : list call) : platform :=
  {| known := known p; applications := applications p; routes := routes p;
     route_mappings := route_mappings p;
     service_bindings := service_bindings p ++ bs;
     generated := generated p; log := log p ++ calls |}.

(** From [p] to [q] nothing is lost but associations: the catalog, the
    applications and the service bindings are the same, and the routes of
    [p] are all there, before those that are new. *)
Definition routes_kept (p q : platform) : Prop :=
  known q = known p
  /\ applications q = applications p
  /\ service_bindings q = service_bindings p
  /\ exists rs, routes q = (routes p ++ rs)%list.

(** From [p] to [q] the associations of [p] are all there, before those
    that are new. *)
Definition associations_kept (p q : platform) : Prop :=
  exists ms, route_mappings q = (route_mappings p ++ ms)%list.

(** Client code that relates the platform it leaves to the one it finds. *)
Definition keeps {A} (R : platform -> platform -> Prop) (m : M A) : Prop :=
  forall p, R p (snd (m p)).

(** A manifest entry is one the push processes. *)
Definition processed (app_manifest : value) : bool :=
  match contains "path" app_manifest, contains "docker" app_manifest with
  | Ok false, Ok false => false
  | _, _ => true
  end.

Section Declared.
Variable urlparse : value -> result parse_result.
Variable py_int : string -> result Z.

(** The declared route parses, its domain resolves, and one of the existing
    routes equals it. *)
Definition already_exists
    (private_domains shared_domains : list (string * value))
    (existing_routes : list value) (requested_route : value) : bool :=
  match _split_route urlparse py_int requested_route with
  | Ok (route, port, _) =>
      match _resolve_domain route private_domains shared_domains with
      | Ok (host, _, domain) =>
          existsb (same_route domain host port) existing_routes
      | Raise _ => false
      end
  | Raise _ => false
  end.

End Declared.

End Spec.

(* ================================================================== *)
(** * Properties *)
(* ================================================================== *)

Import Py Platform PushOperation Spec.

(** Runs the monad of client code one layer down. *)
Ltac run := unfold bind, lift, raise, ret, read; simpl.

(** ** Values *)

Lemma guid_of_str (s : string) :
  guid_of (VStr s) = Raise (TypeError "string indices must be integers").
Proof. reflexivity. Qed.

Lemma guid_of_json (r : resource) : guid_of (to_json r) = Ok (VStr (guid r)).
Proof. reflexivity. Qed.

Lemma receiver_json (method : string) (r : resource) :
  receiver method (to_json r) = Ok (guid r).
Proof. reflexivity. Qed.

Lemma str_len_pos (s : string) : s <> "" -> (0 <? str_len s) = true.
Proof.
  intros H. apply Z.ltb_lt. unfold str_len.
  destruct s as [|c s]; [congruence | simpl; lia].
Qed.

(** ** Domain resolution *)

(** A resolved domain always comes with a host and a name that are strings:
    the host is the empty string or a prefix of the route, never [None]. *)
Lemma resolve_in_strings route scopes host domain_name domain :
  resolve_in route scopes = Ok (host, domain_name, domain) ->
  exists h n, host = VStr h /\ domain_name = VStr n.
Proof.
  induction scopes as [|domains scopes IH]; simpl; [discriminate|].
  destruct (assoc_get route domains).
  - intros [= <- <- <-]. eauto.
  - destruct ((0 <? str_find "." route)
              && (str_find "." route <? str_len route - 2)); auto.
    destruct (assoc_get _ domains); auto.
    intros [= <- <- <-]. eauto.
Qed.

Lemma resolve_in_error route scopes e :
  resolve_in route scopes = Raise e ->
  e = AssertionError (DomainNotFound route).
Proof.
  induction scopes as [|domains scopes IH]; simpl; [congruence|].
  destruct (assoc_get route domains); [discriminate|].
  destruct ((0 <? str_find "." route)
            && (str_find "." route <? str_len route - 2)); auto.
  destruct (assoc_get _ domains); [discriminate | auto].
Qed.

(** ** Requested routes *)

Section Requested.
Variable urlparse : value -> result parse_result.
Variable py_int : string -> result Z.

(** Processing a requested route never changes the platform: no call that
    creates or associates a route is ever issued.  With a port, line 124
    raises, as the host of a resolved domain is never [None]; without one,
    a TCP domain is refused at line 131 and on any other domain the id is
    read from [domain_name], a string, at line 142. *)
Lemma requested_route_frame private_domains shared_domains space app
    existing_routes requested_route p :
  snd (requested_route_body urlparse py_int private_domains shared_domains
         space app existing_routes requested_route p) = p.
Proof.
  unfold requested_route_body. run.
  destruct (_split_route urlparse py_int requested_route)
    as [[[route port] path]|e]; simpl; [|reflexivity].
  destruct ((0 <? str_len path) && negb (is_none port)); simpl;
    [reflexivity|].
  unfold _resolve_domain.
  destruct (resolve_in route [private_domains; shared_domains])
    as [[[host domain_name] domain]|e] eqn:R; simpl; [|reflexivity].
  destruct (resolve_in_strings _ _ _ _ _ R) as (h & n & -> & ->).
  destruct (is_none port) eqn:P; simpl; [|reflexivity].
  destruct (router_group_type domain) as [t|e]; simpl; [|reflexivity].
  destruct (py_eq t (VStr "tcp")); simpl; [reflexivity|].
  destruct (any (host_matches domain (VStr h) existing_routes)) as [[|]|e];
    simpl; reflexivity.
Qed.

(** A requested route with a port is always refused by an assertion: for
    its path (line 122), for its domain (line 175), or at line 125. *)
Lemma requested_port_refused private_domains shared_domains space app
    existing_routes requested_route route n path p :
  _split_route urlparse py_int requested_route = Ok (route, VInt n, path) ->
  exists a,
    requested_route_body urlparse py_int private_domains shared_domains
      space app existing_routes requested_route p
    = (Raise (AssertionError a), p).
Proof.
  intros S. unfold requested_route_body. run. rewrite S. simpl.
  rewrite andb_true_r.
  destruct (0 <? str_len path); simpl; [eauto|].
  unfold _resolve_domain.
  destruct (resolve_in route [private_domains; shared_domains])
    as [[[host domain_name] domain]|e] eqn:R; simpl.
  - destruct (resolve_in_strings _ _ _ _ _ R) as (h & d & -> & ->).
    simpl. eauto.
  - rewrite (resolve_in_error _ _ _ R). eauto.
Qed.

(** For an application without route, a requested route always ends in an
    exception: no host route is ever created. *)
Lemma requested_route_raises private_domains shared_domains space app
    requested_route p :
  exists e,
    requested_route_body urlparse py_int private_domains shared_domains
      space app [] requested_route p = (Raise e, p).
Proof.
  unfold requested_route_body. run.
  destruct (_split_route urlparse py_int requested_route)
    as [[[route port] path]|e]; simpl; [|eauto].
  destruct ((0 <? str_len path) && negb (is_none port)); simpl; [eauto|].
  unfold _resolve_domain.
  destruct (resolve_in route [private_domains; shared_domains])
    as [[[host domain_name] domain]|e] eqn:R; simpl; [|eauto].
  destruct (resolve_in_strings _ _ _ _ _ R) as (h & n & -> & ->).
  destruct (is_none port) eqn:P; simpl; [|eauto].
  destruct (router_group_type domain) as [t|e]; simpl; [|eauto].
  destruct (py_eq t (VStr "tcp")); simpl; eauto.
Qed.

Lemma for_each_frame {A} (f : A -> M unit) (l : list A) :
  (forall x p, snd (f x p) = p) -> forall p, snd (for_each l f p) = p.
Proof.
  intros F. induction l as [|x l IH]; intros p; simpl; [reflexivity|].
  unfold bind. specialize (F x p).
  destruct (f x p) as [[[]|e] p']; simpl in *; subst; auto.
Qed.

Lemma build_new_requested_routes_frame organization space app existing_routes
    requested_routes p :
  snd (_build_new_requested_routes urlparse py_int organization space app
         existing_routes requested_routes p) = p.
Proof.
  unfold _build_new_requested_routes, organization_private_domains,
    organization_shared_domains. run.
  destruct (receiver "private_domains" organization); simpl; [|reflexivity].
  destruct (by_name _ []); simpl; [|reflexivity].
  destruct (receiver "shared_domains" organization); simpl; [|reflexivity].
  destruct (by_name _ []); simpl; [|reflexivity].
  destruct (iter requested_routes); simpl; [|reflexivity].
  apply for_each_frame. intros x q. apply requested_route_frame.
Qed.

(** ** The log *)

Lemma creations_record (c : call) (p : platform) :
  creations (snd (record c p))
  = (creations p ++ (if is_creation c then [c] else []))%list.
Proof.
  unfold creations, record. simpl. rewrite filter_app. simpl.
  destruct (is_creation c); reflexivity.
Qed.

Lemma app_routes_frame (app : value) (p : platform) :
  snd (app_routes app p) = p.
Proof.
  unfold app_routes. run. destruct (receiver "routes" app); reflexivity.
Qed.

Lemma remove_route_creations (a r : value) (p : platform) :
  creations (snd (client_apps_remove_route a r p)) = creations p.
Proof.
  unfold client_apps_remove_route. run.
  destruct (as_guid a); simpl; [destruct (as_guid r); simpl|];
    unfold creations; simpl; rewrite filter_app; simpl; apply app_nil_r.
Qed.

Lemma remove_all_routes_creations (app : value) (l : list value) :
  forall p, creations (snd (_remove_all_routes app l p)) = creations p.
Proof.
  unfold _remove_all_routes.
  induction l as [|route l IH]; intros p; simpl; [reflexivity|].
  run. destruct (guid_of app) as [a|e]; simpl; [|reflexivity].
  destruct (guid_of route) as [r|e]; simpl; [|reflexivity].
  pose proof (remove_route_creations a r p) as H.
  destruct (client_apps_remove_route a r p) as [[[]|e] p']; simpl in *.
  - rewrite <- H. apply IH.
  - exact H.
Qed.

(** With a route already associated, the reconciliation creates none. *)
Lemma route_application_creations organization space app app_manifest
    existing_routes p :
  fst (app_routes app p) = Ok existing_routes ->
  existing_routes <> [] ->
  creations (snd (_route_application urlparse py_int organization space
                    app app_manifest p)) = creations p.
Proof.
  intros E N. unfold _route_application. unfold bind at 1.
  pose proof (app_routes_frame app p) as F.
  destruct (app_routes app p) as [[l|e] p']; simpl in *; subst p';
    [|discriminate].
  injection E as ->. run.
  destruct (get app_manifest "no-route" (VBool false)) as [nr|e]; simpl;
    [|reflexivity].
  destruct (truthy nr); [apply remove_all_routes_creations|].
  destruct (contains "routes" app_manifest) as [declared|e]; simpl;
    [|reflexivity].
  assert (L : (Z.of_nat (List.length existing_routes) =? 0) = false).
  { apply Z.eqb_neq. destruct existing_routes; [congruence|simpl; lia]. }
  assert (G : forall q,
             creations (snd (match getitem app_manifest "routes" with
                             | Ok a => _build_new_requested_routes urlparse
                                         py_int organization space app
                                         existing_routes a q
                             | Raise e => (Raise e, q)
                             end)) = creations q).
  { intros q. destruct (getitem app_manifest "routes"); simpl;
      [now rewrite build_new_requested_routes_frame | reflexivity]. }
  destruct declared; simpl.
  - destruct (get app_manifest "routes" VNone) as [rs|e]; simpl;
      [|reflexivity].
    destruct (len rs) as [n|e]; simpl; [|reflexivity].
    rewrite L, andb_false_r. apply G.
  - rewrite L. simpl. apply G.
Qed.

(** A default route, once built, is associated to the application. *)
Lemma default_route_associated space (a : resource) random_route p :
  fst (_build_default_route space (to_json a) random_route p) = Ok tt ->
  routes_of (snd (_build_default_route space (to_json a) random_route p))
    (guid a) <> [].
Proof.
  assert (K : forall (ms : list (string * string)) (rs : list resource) e g,
             filter (mapped (ms ++ [(guid a, g)]) (guid a))
               (rs ++ [{| guid := g; entity := e |}]) <> []).
  { intros ms rs e g. rewrite filter_app. simpl.
    assert (T : mapped (ms ++ [(guid a, g)]) (guid a)
                  {| guid := g; entity := e |} = true).
    { unfold mapped. rewrite existsb_app. simpl.
      rewrite !String.eqb_refl. simpl. apply orb_true_r. }
    rewrite T. intros X. apply app_eq_nil in X. destruct X; discriminate. }
  unfold _build_default_route, shared_domains_list, routes_of. run.
  destruct (first_not_internal _) as [d|e]; simpl; [|discriminate].
  destruct (is_none d); simpl; [discriminate|].
  destruct (router_group_type d) as [t|e]; simpl; [|discriminate].
  destruct (py_eq t (VStr "tcp")); [|destruct (truthy random_route)];
    (destruct (guid_of d) as [dg|e]; simpl; [|discriminate]);
    (destruct (guid_of space) as [sg|e]; simpl; [|discriminate]);
    try (destruct (assoc_get "name" (entity a)) as [n|]; simpl;
         [|discriminate]);
    intros _; apply K.
Qed.

(** C10.  When the application already has associated routes, route
    reconciliation issues no route-creation call for a declared route,
    whether or not one of the existing routes matches its domain, host or
    port: this holds for the processing of each declared route, with any
    tables of domains, and for the reconciliation as a whole. *)
Theorem existing_routes_block_creation organization space app app_manifest
    existing_routes p :
  fst (app_routes app p) = Ok existing_routes ->
  existing_routes <> [] ->
  (forall private_domains shared_domains requested_route q,
      creations (snd (requested_route_body urlparse py_int private_domains
                        shared_domains space app existing_routes
                        requested_route q)) = creations q)
  /\ creations (snd (_route_application urlparse py_int organization space
                       app app_manifest p)) = creations p.
Proof.
  intros E N. split.
  - intros. now rewrite requested_route_frame.
  - now apply route_application_creations with existing_routes.
Qed.

(** With [no-route] set, the reconciliation creates no route. *)
Lemma no_route_creations organization space app app_manifest nr p :
  get app_manifest "no-route" (VBool false) = Ok nr ->
  truthy nr = true ->
  creations (snd (_route_application urlparse py_int organization space
                    app app_manifest p)) = creations p.
Proof.
  intros G T. unfold _route_application. unfold bind at 1.
  pose proof (app_routes_frame app p) as F.
  destruct (app_routes app p) as [[l|e] p']; simpl in *; subst p';
    [|reflexivity].
  run. rewrite G. simpl. rewrite T. apply remove_all_routes_creations.
Qed.

(** A reconciliation that succeeds was asked for no route, or leaves the
    application with a route, or has changed nothing. *)
Lemma route_application_outcome organization space (a : resource)
    app_manifest p :
  fst (_route_application urlparse py_int organization space (to_json a)
         app_manifest p) = Ok tt ->
  (exists nr, get app_manifest "no-route" (VBool false) = Ok nr
              /\ truthy nr = true)
  \/ routes_of (snd (_route_application urlparse py_int organization space
                       (to_json a) app_manifest p)) (guid a) <> []
  \/ snd (_route_application urlparse py_int organization space (to_json a)
            app_manifest p) = p.
Proof.
  unfold _route_application, app_routes. run.
  destruct (get app_manifest "no-route" (VBool false)) as [nr|e] eqn:G;
    simpl; [|discriminate].
  destruct (truthy nr) eqn:T; [intros _; left; eauto|].
  destruct (contains "routes" app_manifest) as [declared|e]; simpl;
    [|discriminate].
  destruct (if negb declared then Ok true
            else rbind (get app_manifest "routes" VNone)
                   (fun rs => rbind (len rs) (fun n => Ok (n =? 0))))
    as [none_declared|e]; simpl; [|discriminate].
  destruct (none_declared && _); simpl.
  - destruct (get app_manifest "random-route" (VBool false))
      as [random_route|e]; simpl; [|discriminate].
    intros H. right. left. now apply default_route_associated.
  - destruct (getitem app_manifest "routes") as [rs|e]; simpl;
      [|discriminate].
    intros _. right. right. apply build_new_requested_routes_frame.
Qed.

(** C4.  Reconciling the declared routes against a state where each of them
    already exists (an existing route of the same domain and port, or of
    the same domain and host) issues no route-creation call; and running
    the reconciliation of a manifest entry again, after it has succeeded,
    issues none either. *)
Theorem reconciliation_idempotent organization space :
  (forall app existing_routes requested_routes p l l' private_domains
          shared_domains,
      fst (organization_private_domains organization p) = Ok l ->
      by_name l [] = Ok private_domains ->
      fst (organization_shared_domains organization p) = Ok l' ->
      by_name l' [] = Ok shared_domains ->
      Forall (fun r => already_exists urlparse py_int private_domains
                         shared_domains existing_routes r = true)
             requested_routes ->
      creations (snd (_build_new_requested_routes urlparse py_int
                        organization space app existing_routes
                        (VList requested_routes) p))
      = creations p)
  /\ (forall (a : resource) app_manifest p,
        let once := _route_application urlparse py_int organization space
                      (to_json a) app_manifest p in
        fst once = Ok tt ->
        creations (snd (_route_application urlparse py_int organization
                          space (to_json a) app_manifest (snd once)))
        = creations (snd once)).
Proof.
  split.
  - intros. now rewrite build_new_requested_routes_frame.
  - intros a app_manifest p once H.
    destruct (route_application_outcome _ _ _ _ _ H)
      as [(nr & G & T)|[R|S]].
    + now apply no_route_creations with nr.
    + apply route_application_creations
        with (map to_json (routes_of (snd once) (guid a))); [reflexivity|].
      intros X. apply map_eq_nil in X. contradiction.
    + unfold once in *. rewrite S. now rewrite S.
Qed.

(** C7.  A declared route that parses to a non-empty path and a port is
    refused with the assertion of line 122 (ConflictingAttributes),
    whatever the tables of private and shared domains hold: the domain of
    the route is not looked up, and nothing is asked of the platform.  The
    same holds for the loop when such a route comes first. *)
Theorem path_and_port_conflict requested_route route port path :
  _split_route urlparse py_int requested_route = Ok (route, port, path) ->
  path <> "" ->
  port <> VNone ->
  forall private_domains shared_domains space app existing_routes rest p,
    requested_route_body urlparse py_int private_domains shared_domains
      space app existing_routes requested_route p
    = (Raise (AssertionError (PortAndPath requested_route)), p)
    /\ for_each (requested_route :: rest)
         (requested_route_body urlparse py_int private_domains
            shared_domains space app existing_routes) p
       = (Raise (AssertionError (PortAndPath requested_route)), p).
Proof.
  intros S Hpath Hport private_domains shared_domains space app
    existing_routes rest p.
  assert (B : requested_route_body urlparse py_int private_domains
                shared_domains space app existing_routes requested_route p
              = (Raise (AssertionError (PortAndPath requested_route)), p)).
  { unfold requested_route_body. run. rewrite S. simpl.
    rewrite (str_len_pos _ Hpath).
    destruct port; try congruence; reflexivity. }
  split; [exact B|].
  simpl. unfold bind. now rewrite B.
Qed.

End Requested.

(** ** Detaching routes *)

Lemma filter_twice {A} (f g : A -> bool) (l : list A) :
  filter f (filter g l) = filter (fun x => g x && f x) l.
Proof.
  induction l as [|x l IH]; simpl; [reflexivity|].
  destruct (g x); simpl; [destruct (f x)|]; now rewrite IH.
Qed.

Lemma filter_none {A} (f : A -> bool) (l : list A) :
  (forall x, In x l -> f x = false) -> filter f l = [].
Proof.
  induction l as [|x l IH]; simpl; intros H; [reflexivity|].
  rewrite (H x (or_introl eq_refl)). apply IH. intros y Hy. apply H. now right.
Qed.

Lemma with_mappings_same (p : platform) :
  with_mappings p (route_mappings p) [] = p.
Proof.
  destruct p. unfold with_mappings. simpl. now rewrite app_nil_r.
Qed.

Lemma detach_nil (a : string) (ms : list (string * string)) :
  detach a [] ms = ms.
Proof.
  unfold detach. induction ms as [|m ms IH]; simpl in *; [reflexivity|].
  rewrite andb_false_r. simpl. f_equal. exact IH.
Qed.

(** Detaching every route of a list: one call per route, in order, each
    taking one association away. *)
Lemma remove_all_routes_json (a : resource) (rs : list resource) :
  forall p,
    _remove_all_routes (to_json a) (map to_json rs) p
    = (Ok tt, with_mappings p (detach (guid a) rs (route_mappings p))
                (removals (guid a) rs)).
Proof.
  unfold _remove_all_routes.
  induction rs as [|r rs IH]; intros p; simpl.
  - unfold ret. now rewrite detach_nil, with_mappings_same.
  - run. rewrite IH. unfold with_mappings. simpl. f_equal. f_equal.
    + unfold detach. rewrite filter_twice. apply filter_ext. intros [x y].
      simpl. destruct (String.eqb x (guid a)); simpl; [|reflexivity].
      destruct (String.eqb y (guid r)); reflexivity.
    + now rewrite <- app_assoc.
Qed.

(** Once an application is detached from all the routes it was associated
    to, it has no route left. *)
Lemma detach_all (a : string) (rs : list resource)
    (ms : list (string * string)) :
  filter (mapped (detach a (filter (mapped ms a) rs) ms) a) rs = [].
Proof.
  apply filter_none. intros r Hr.
  destruct (mapped (detach a (filter (mapped ms a) rs) ms) a r) eqn:E;
    [|reflexivity].
  exfalso. unfold mapped in E. apply existsb_exists in E.
  destruct E as (m & Hm & E). apply andb_prop in E. destruct E as [E1 E2].
  unfold detach in Hm. apply filter_In in Hm. destruct Hm as [Hm D].
  rewrite E1, andb_true_l in D. apply negb_true_iff in D.
  assert (X : existsb (fun r0 => String.eqb (snd m) (guid r0))
                (filter (mapped ms a) rs) = true).
  { apply existsb_exists. exists r. split; [|exact E2].
    apply filter_In. split; [exact Hr|].
    unfold mapped. apply existsb_exists. exists m.
    split; [exact Hm|]. now rewrite E1, E2. }
  exact (eq_true_false_abs _ X D).
Qed.

Section RouteApplication.
Variable urlparse : value -> result parse_result.
Variable py_int : string -> result Z.

(** C5.  For a manifest entry with [no-route: true], route reconciliation
    succeeds and leaves the application without any associated route,
    whatever routes it had: one [remove_route] call is issued for each
    route that was associated, and the routes themselves all remain. *)
Theorem no_route_detaches_all organization space (a : resource)
    (m : list (string * value)) (p : platform) :
  flag m "no-route" = true ->
  let r := _route_application urlparse py_int organization space
             (to_json a) (VDict m) p in
  fst r = Ok tt
  /\ fst (app_routes (to_json a) (snd r)) = Ok []
  /\ routes (snd r) = routes p
  /\ log (snd r) = (log p ++ removals (guid a) (routes_of p (guid a)))%list.
Proof.
  intros H. unfold _route_application, app_routes. run.
  unfold flag in H. destruct (assoc_get "no-route" m) as [v|]; simpl;
    [rewrite H | discriminate].
  fold (routes_of p (guid a)). rewrite remove_all_routes_json. simpl.
  repeat split. unfold routes_of. now rewrite detach_all.
Qed.

(** ** The default route *)

(** The loop of lines 97-100 finds the first shared domain that is not
    internal. *)
Lemma first_not_internal_find (l : list resource) :
  forallb has_internal l = true ->
  first_not_internal (map to_json l)
  = Ok (match find external l with
        | Some d => to_json d
        | None => VNone
        end).
Proof.
  induction l as [|d l IH]; simpl; [reflexivity|].
  intros H. apply andb_prop in H. destruct H as [H1 H2].
  unfold has_internal in H1. unfold external, dget.
  destruct (assoc_get "internal" (entity d)) as [i|]; [|discriminate].
  simpl. destruct (truthy i); simpl; [now apply IH | reflexivity].
Qed.

Lemma router_group_type_json (d : resource) :
  router_group_type (to_json d) = Ok (dget (entity d) "router_group_type").
Proof.
  unfold router_group_type, dget. simpl.
  destruct (assoc_get "router_group_type" (entity d)); reflexivity.
Qed.

Lemma build_default_route_json (space a : resource) (random_route name : value)
    (p : platform) :
  forallb has_internal (shared_domains (known p)) = true ->
  assoc_get "name" (entity a) = Some name ->
  let r := _build_default_route (to_json space) (to_json a) random_route p in
  match find external (shared_domains (known p)) with
  | None => r = (Raise (AssertionError NoSharedDomain), p)
  | Some d =>
      let host := default_host name (truthy random_route) (clock (known p)) in
      fst r = Ok tt
      /\ log (snd r)
         = (log p ++ [default_creation d space host;
                      apps_associate_route (VStr (guid a))
                        (VStr (next_guid p))])%list
      /\ route_mappings (snd r)
         = (route_mappings p ++ [(guid a, next_guid p)])%list
      /\ exists e,
           routes (snd r)
           = (routes p ++ [{| guid := next_guid p; entity := e |}])%list
           /\ assoc_get "domain_guid" e = Some (VStr (guid d))
  end.
Proof.
  intros I N. unfold _build_default_route, shared_domains_list. run.
  rewrite (first_not_internal_find _ I).
  destruct (find external (shared_domains (known p))) as [d|]; simpl;
    [|reflexivity].
  rewrite router_group_type_json. simpl. fold (tcp_typed d).
  unfold default_creation, default_host.
  destruct (tcp_typed d); [|destruct (truthy random_route); rewrite N];
    unfold client_routes_create_tcp_route, client_routes_create_host_route,
      new_route, client_apps_associate_route, fresh_guid, record,
      set_routes, set_route_mappings, next_guid; run;
    rewrite <- app_assoc; simpl; repeat split; eexists; split; reflexivity.
Qed.

(** C6, amended.  For a manifest entry whose [no-route] flag is not set,
    with no declared route (no [routes] key, or an empty list), and an
    application without associated route, where every shared domain says
    whether it is internal: without a shared domain that is not internal
    the reconciliation fails with the assertion of line 102
    (ConfigurationError) and changes nothing; otherwise it creates exactly
    one route, on the first such domain, and associates it to the
    application. The route is a TCP route without a port when the domain is
    TCP-typed, and else a host route whose host is the name of the
    application, followed by [-] and the time in seconds when
    [random-route] is set. *)
Theorem default_route_created organization (space a : resource)
    (m : list (string * value)) (name : value) (p : platform) :
  flag m "no-route" = false ->
  no_declared_routes m ->
  routes_of p (guid a) = [] ->
  forallb has_internal (shared_domains (known p)) = true ->
  assoc_get "name" (entity a) = Some name ->
  let r := _route_application urlparse py_int organization (to_json space)
             (to_json a) (VDict m) p in
  match find external (shared_domains (known p)) with
  | None => r = (Raise (AssertionError NoSharedDomain), p)
  | Some d =>
      let host := default_host name (flag m "random-route")
                    (clock (known p)) in
      fst r = Ok tt
      /\ log (snd r)
         = (log p ++ [default_creation d space host;
                      apps_associate_route (VStr (guid a))
                        (VStr (next_guid p))])%list
      /\ creations (snd r)
         = (creations p ++ [default_creation d space host])%list
      /\ route_mappings (snd r)
         = (route_mappings p ++ [(guid a, next_guid p)])%list
      /\ exists e,
           routes (snd r)
           = (routes p ++ [{| guid := next_guid p; entity := e |}])%list
           /\ assoc_get "domain_guid" e = Some (VStr (guid d))
  end.
Proof.
  intros NR ND E I N.
  assert (R : _route_application urlparse py_int organization (to_json space)
                (to_json a) (VDict m) p
              = _build_default_route (to_json space) (to_json a)
                  (match assoc_get "random-route" m with
                   | Some v => v
                   | None => VBool false
                   end) p).
  { unfold _route_application, app_routes. run.
    fold (routes_of p (guid a)). rewrite E. simpl.
    unfold flag in NR.
    destruct (assoc_get "no-route" m) as [v|]; simpl; [rewrite NR|];
      (destruct ND as [D|D]; rewrite D; simpl;
       destruct (assoc_get "random-route" m); reflexivity). }
  pose proof (build_default_route_json space a
                (match assoc_get "random-route" m with
                 | Some v => v
                 | None => VBool false
                 end) name p I N) as B.
  simpl in B. rewrite R.
  destruct (find external (shared_domains (known p))) as [d|]; [|exact B].
  assert (F : truthy match assoc_get "random-route" m with
                     | Some v => v
                     | None => VBool false
                     end = flag m "random-route").
  { unfold flag. destruct (assoc_get "random-route" m); reflexivity. }
  rewrite F in B. destruct B as (B1 & B2 & B3 & B4).
  repeat split; try assumption.
  unfold creations. rewrite B2, filter_app. simpl.
  unfold default_creation at 1. destruct (tcp_typed d); reflexivity.
Qed.

End RouteApplication.

(** ** Dictionaries *)

Lemma assoc_get_set {A} (k k' : string) (v : A) (d : list (string * A)) :
  assoc_get k (assoc_set k' v d)
  = if String.eqb k k' then Some v else assoc_get k d.
Proof.
  induction d as [|[k0 v0] d IH]; simpl.
  - destruct (String.eqb k k'); reflexivity.
  - destruct (String.eqb_spec k' k0) as [->|N]; simpl.
    + destruct (String.eqb k k0); reflexivity.
    + destruct (String.eqb_spec k k0) as [->|N'].
      * destruct (String.eqb_spec k0 k'); [congruence | reflexivity].
      * exact IH.
Qed.

Lemma assoc_get_del {A} (k k' : string) (d : list (string * A)) :
  k <> k' -> assoc_get k (assoc_del k' d) = assoc_get k d.
Proof.
  intros N. induction d as [|[k0 v0] d IH]; simpl; [reflexivity|].
  destruct (String.eqb_spec k' k0) as [->|N']; simpl.
  - destruct (String.eqb_spec k k0); [congruence | reflexivity].
  - now rewrite IH.
Qed.

Lemma assoc_del_absent {A} (k : string) (d : list (string * A)) :
  assoc_get k d = None -> assoc_del k d = d.
Proof.
  induction d as [|[k0 v0] d IH]; simpl; [reflexivity|].
  destruct (String.eqb k k0); [discriminate|].
  intros H. now rewrite IH.
Qed.

Lemma assoc_get_snoc {A} (k k0 : string) (v0 : A) (l : list (string * A)) :
  assoc_get k (l ++ [(k0, v0)])
  = match assoc_get k l with
    | Some v => Some v
    | None => if String.eqb k k0 then Some v0 else None
    end.
Proof.
  induction l as [|[k1 v1] l IH]; simpl; [reflexivity|].
  destruct (String.eqb k k1); [reflexivity | exact IH].
Qed.

Lemma assoc_get_absent {A} (k : string) (d : list (string * A)) :
  ~ In k (map fst d) -> assoc_get k d = None.
Proof.
  induction d as [|[k0 v0] d IH]; simpl; [reflexivity|].
  intros N. destruct (String.eqb_spec k k0) as [->|_]; [tauto|].
  apply IH. tauto.
Qed.

(** With distinct keys the order of the entries does not matter. *)
Lemma assoc_get_rev {A} (k : string) (d : list (string * A)) :
  NoDup (map fst d) -> assoc_get k (rev d) = assoc_get k d.
Proof.
  induction d as [|[k0 v0] d IH]; simpl; [reflexivity|].
  intros N. inversion N as [|x l Hx Hl]; subst.
  rewrite assoc_get_snoc, (IH Hl).
  destruct (String.eqb_spec k k0) as [->|_].
  - now rewrite (assoc_get_absent _ _ Hx).
  - destruct (assoc_get k d); reflexivity.
Qed.

(** [d.update(other)]: for each key the last entry of [other] wins, and
    the keys [other] does not have keep their value. *)
Lemma assoc_get_update {A} (k : string) (other d : list (string * A)) :
  assoc_get k (assoc_update d other)
  = match assoc_get k (rev other) with
    | Some v => Some v
    | None => assoc_get k d
    end.
Proof.
  unfold assoc_update. revert d.
  induction other as [|[k0 v0] other IH]; intros d; simpl; [reflexivity|].
  rewrite IH. clear IH.
  rewrite assoc_get_snoc, assoc_get_set.
  destruct (assoc_get k (rev other)); [reflexivity|].
  destruct (String.eqb k k0); reflexivity.
Qed.

Lemma assoc_get_update_none {A} (k : string) (other d : list (string * A)) :
  assoc_get k other = None ->
  assoc_get k (assoc_update d other) = assoc_get k d.
Proof.
  unfold assoc_update. revert d.
  induction other as [|[k0 v0] other IH]; intros d; simpl; [reflexivity|].
  destruct (String.eqb_spec k k0) as [->|N]; [discriminate|].
  intros H. rewrite (IH _ H), assoc_get_set.
  destruct (String.eqb_spec k k0); [congruence | reflexivity].
Qed.

(** ** The request *)

(** The environment of an update, for an application and a manifest entry
    given in this order: the entries of the application, overlaid with
    those of the manifest, which win on a common key. *)
Lemma merge_environment_overlay (a : resource) (m : list (string * value))
    (existing declared : list (string * value)) :
  assoc_get "environment_json" (entity a) = Some (VDict existing) ->
  assoc_get "env" m = Some (VDict declared) ->
  NoDup (map fst existing) ->
  NoDup (map fst declared) ->
  exists environment,
    _merge_environment (to_json a) (VDict m) = Ok environment
    /\ forall k,
         assoc_get k environment
         = match assoc_get k declared with
           | Some v => Some v
           | None => assoc_get k existing
           end.
Proof.
  intros E D N N'. unfold _merge_environment. simpl. rewrite E, D. simpl.
  eexists. split; [reflexivity|].
  intros k. rewrite !assoc_get_update. simpl.
  rewrite (assoc_get_rev _ _ N), (assoc_get_rev _ _ N').
  destruct (assoc_get k declared); [reflexivity|].
  destruct (assoc_get k existing); reflexivity.
Qed.

(** Building the request from an application object, as the update does
    on its first argument: a copy, with no call to the platform. *)
Lemma build_request_from_entity (a : resource) (p : platform) :
  _build_request_from_manifest (to_json a) p
  = (Ok [("metadata", VDict [("guid", VStr (guid a))]);
         ("entity", VDict (entity a))], p).
Proof. reflexivity. Qed.

(** C2.  An update never sends the merged environment: [_init_application]
    passes the application and the manifest entry to [_update_application]
    in the order opposite to its parameters, so the environment is looked
    for under [entity] of the manifest entry, and the push stops on the
    missing key before any request is sent. *)
Theorem update_raises_before_request (space a : resource)
    (m : list (string * value)) (name : value) (p : platform) :
  assoc_get "name" m = Some name ->
  assoc_get "entity" m = None ->
  find (matches [("name", name); ("space_guid", VStr (guid space))])
       (applications p) = Some a ->
  _init_application (to_json space) (VDict m) p
  = (Raise (KeyError "entity"), p).
Proof.
  intros N E F. unfold _init_application, apps_get_first. run.
  rewrite N. simpl. rewrite F. simpl.
  unfold _update_application. unfold bind at 1.
  rewrite build_request_from_entity. unfold _merge_environment. run.
  now rewrite E.
Qed.

(** C9.  A manifest entry that names a stack has the name looked up among
    the stacks.  Without a stack of that name the lookup fails with
    NotFound, and the failure is the outcome of building the request and of
    creating the application: nothing handles it.  With one, every request
    built carries its id as [stack_guid], and a request is built whenever
    the entry has no [docker] block. *)
Theorem stack_resolved_by_name (m : list (string * value)) (name : value)
    (p : platform) :
  assoc_get "stack" m = Some name ->
  match find (matches [("name", name)]) (stacks (known p)) with
  | None =>
      _build_request_from_manifest (VDict m) p = (Raise (NotFound "stack"), p)
      /\ forall space,
           _create_application space (VDict m) p
           = (Raise (NotFound "stack"), p)
  | Some s =>
      (forall request q,
          _build_request_from_manifest (VDict m) p = (Ok request, q) ->
          assoc_get "stack_guid" request = Some (VStr (guid s)) /\ q = p)
      /\ (assoc_get "docker" m = None ->
          _build_request_from_manifest (VDict m) p
          = (Ok (assoc_set "stack_guid" (VStr (guid s)) (assoc_update [] m)),
             p))
  end.
Proof.
  intros H. unfold _create_application, _build_request_from_manifest,
    stacks_get_first. run. rewrite H. simpl.
  destruct (find (matches [("name", name)]) (stacks (known p))) as [s|];
    simpl; [|split; reflexivity].
  set (request := assoc_set "stack_guid" (VStr (guid s)) (assoc_update [] m)).
  assert (G : forall k, k <> "docker" ->
               assoc_get k (assoc_del "docker" request)
               = assoc_get k request).
  { intros k N. now apply assoc_get_del. }
  assert (S : assoc_get "stack_guid" (assoc_del "docker" request)
              = Some (VStr (guid s))).
  { rewrite G by discriminate. unfold request. now rewrite assoc_get_set. }
  split.
  - intros r q.
    destruct (is_none (dget request "docker")); simpl.
    + intros [= <- <-]. now split.
    + destruct (contains "image" (dget request "docker")) as [[|]|e]; simpl;
        try discriminate.
      * destruct (getitem (dget request "docker") "image") as [image|e];
          simpl; [|discriminate].
        destruct (contains "username" (dget request "docker")) as [[|]|e];
          simpl; try discriminate.
        -- destruct (contains "password" (dget request "docker"))
             as [[|]|e]; simpl; try discriminate.
           ++ destruct (getitem (dget request "docker") "username");
                simpl; [|discriminate].
              destruct (getitem (dget request "docker") "password");
                simpl; [|discriminate].
              intros [= <- <-]. now rewrite !assoc_get_set.
           ++ intros [= <- <-]. now rewrite !assoc_get_set.
        -- intros [= <- <-]. now rewrite !assoc_get_set.
      * intros [= <- <-]. now split.
  - intros D.
    assert (X : assoc_get "docker" request = None).
    { unfold request. rewrite assoc_get_set. simpl.
      now rewrite assoc_get_update_none. }
    unfold dget. rewrite X. simpl. now rewrite (assoc_del_absent _ _ X).
Qed.

(** ** The push *)

Section Push.
Variable urlparse : value -> result parse_result.
Variable py_int : string -> result Z.

Lemma push_entry_skipped organization space e p :
  processed e = false ->
  push_entry urlparse py_int organization space e p = (Ok tt, p).
Proof.
  unfold processed, push_entry. run.
  destruct (contains "path" e) as [[|]|]; try discriminate.
  destruct (contains "docker" e) as [[|]|]; try discriminate.
  reflexivity.
Qed.

Lemma for_each_processed organization space (l : list value) :
  forall p,
    for_each l (push_entry urlparse py_int organization space) p
    = for_each (filter processed l)
        (push_entry urlparse py_int organization space) p.
Proof.
  induction l as [|e l IH]; intros p; simpl; [reflexivity|].
  destruct (processed e) eqn:P; simpl.
  - unfold bind. destruct (push_entry _ _ _ _ e p) as [[[]|x] q];
      [apply IH | reflexivity].
  - unfold bind. rewrite (push_entry_skipped _ _ _ _ P). apply IH.
Qed.

(** C8, amended.  A push goes through the manifest entries in order and
    leaves out those with neither a [path] nor a [docker] key.  For an entry
    with [docker] and no [path] it resolves or creates the application
    record, reconciles the routes, binds the services and restarts the
    application, in this order and up to the first failure; when all succeed
    the stop and the start are the last calls issued.  For an entry with
    [path] it resolves or creates the application record and reconciles the
    routes, and the upload, which is not implemented, then raises. *)
Theorem push_processes_entries organization space :
  (forall space_id manifest_path l p,
      load_application_manifests manifest_path p = (Ok l, p) ->
      _retrieve_space_and_organization space_id p
      = (Ok (organization, space), p) ->
      push urlparse py_int space_id manifest_path p
      = for_each (filter processed l)
          (push_entry urlparse py_int organization space) p)
  /\ (forall e p,
        contains "path" e = Ok false ->
        contains "docker" e = Ok true ->
        push_entry urlparse py_int organization space e p
        = (app <- _init_application space e ;;
           _route_application urlparse py_int organization space app e ;;
           _bind_services space app e ;;
           _restart_application) p
        /\ (fst (push_entry urlparse py_int organization space e p) = Ok tt ->
            exists calls,
              log (snd (push_entry urlparse py_int organization space e p))
              = (calls ++ [apps_stop; apps_start])%list))
  /\ (forall e p,
        contains "path" e = Ok true ->
        push_entry urlparse py_int organization space e p
        = (app <- _init_application space e ;;
           _route_application urlparse py_int organization space app e ;;
           raise (NotImplementedError "To be implemented")) p).
Proof.
  split; [|split].
  - intros space_id manifest_path l p L R. unfold push. unfold bind at 1.
    rewrite L. unfold bind at 1. rewrite R. apply for_each_processed.
  - intros e p P D.
    assert (E : push_entry urlparse py_int organization space e p
                = _push_docker urlparse py_int organization space e p).
    { unfold push_entry. run. now rewrite P, D. }
    split; [exact E|]. rewrite E. unfold _push_docker, bind.
    destruct (_init_application space e p) as [[app|x] p1]; simpl;
      [|discriminate].
    destruct (_route_application _ _ _ _ app e p1) as [[[]|x] p2]; simpl;
      [|discriminate].
    destruct (_bind_services space app e p2) as [[[]|x] p3]; simpl;
      [|discriminate].
    intros _. exists (log p3 ++ [])%list. unfold _restart_application.
    unfold client_apps_stop, client_apps_start, record. run.
    now rewrite app_nil_r, <- app_assoc.
  - intros e p P. unfold push_entry. run. rewrite P.
    unfold _push_application, _upload_application. run. unfold bind.
    destruct (_init_application space e p) as [[app|x] p1]; simpl;
      [|reflexivity].
    destruct (_route_application _ _ _ _ app e p1) as [[[]|x] p2];
      reflexivity.
Qed.

End Push.

(** ** The scenarios of the specification *)

Import Scenario.

(** C1.  The declared route [tcp-domain.example.com:4444], with this domain
    a shared domain of TCP type and no route on it: no route is created.
    As written the route has no network location for [urlparse], and no
    domain is found for the empty name (line 175).  Written with a leading
    [//] it has one, the domain is found and the port is 4444, and line 124
    refuses it: the host that comes with the domain is the empty string,
    which is not [None]. *)
Theorem tcp_route_not_created :
  route_application (to_json organization) (to_json space) (to_json app)
    (declaring "tcp-domain.example.com:4444") fresh_platform
  = (Raise (AssertionError (DomainNotFound "")), fresh_platform)
  /\ _split_route CPython.urlparse CPython.int
       (requested "//tcp-domain.example.com:4444")
     = Ok ("tcp-domain.example.com", VInt 4444, "")
  /\ route_application (to_json organization) (to_json space) (to_json app)
       (declaring "//tcp-domain.example.com:4444") fresh_platform
     = (Raise (AssertionError
                 (PortAndHost (requested "//tcp-domain.example.com:4444")
                    (VStr "tcp-domain.example.com"))), fresh_platform).
Proof. repeat split; vm_compute; reflexivity. Qed.

(** C3.  The declared route [myhost.shared.example.com/custom], with
    [shared.example.com] a shared domain that is not of TCP type and no
    route on it: no route is created.  As written the route has no network
    location for [urlparse], and no domain is found for the empty name
    (line 175).  Written with a leading [//] it resolves to the host
    [myhost] on the domain, and line 142 then reads the id of the domain
    from [domain_name], a string. *)
Theorem host_route_not_created :
  route_application (to_json organization) (to_json space) (to_json app)
    (declaring "myhost.shared.example.com/custom") fresh_platform
  = (Raise (AssertionError (DomainNotFound "")), fresh_platform)
  /\ _split_route CPython.urlparse CPython.int
       (requested "//myhost.shared.example.com/custom")
     = Ok ("myhost.shared.example.com", VNone, "/custom")
  /\ route_application (to_json organization) (to_json space) (to_json app)
       (declaring "//myhost.shared.example.com/custom") fresh_platform
     = (Raise (TypeError "string indices must be integers"), fresh_platform).
Proof. repeat split; vm_compute; reflexivity. Qed.

(** C6 as first stated fails on an entry with [no-route] set: with no
    declared route and an application without route, the reconciliation
    succeeds and creates no route. *)
Lemma no_route_before_default_route :
  no_declared_routes [("name", VStr "app"); ("no-route", VBool true)]
  /\ routes_of fresh_platform (guid app) = []
  /\ fst (route_application (to_json organization) (to_json space)
            (to_json app)
            (VDict [("name", VStr "app"); ("no-route", VBool true)])
            fresh_platform) = Ok tt
  /\ creations
       (snd (route_application (to_json organization) (to_json space)
               (to_json app)
               (VDict [("name", VStr "app"); ("no-route", VBool true)])
               fresh_platform)) = [].
Proof. repeat split; vm_compute; auto. Qed.

(** C8 as first stated fails on a manifest whose only entry has neither
    [path] nor [docker]: the push succeeds without a single call, and no
    application is created. *)
Lemma push_skips_entry :
  run_push (VStr "space-1") "manifest.yml"
    (pushing (VDict [("name", VStr "app")]))
  = (Ok tt, pushing (VDict [("name", VStr "app")]))
  /\ log (pushing (VDict [("name", VStr "app")])) = []
  /\ applications (pushing (VDict [("name", VStr "app")])) = [].
Proof. repeat split; vm_compute; reflexivity. Qed.

(** ** Instances *)

(** C2 on the platform of the scenarios. *)
Lemma update_raises_before_request_witness :
  _init_application (to_json space)
    (VDict [("name", VStr "app"); ("env", VDict [("B", VStr "2")])])
    fresh_platform
  = (Raise (KeyError "entity"), fresh_platform).
Proof.
  apply (update_raises_before_request space app
           [("name", VStr "app"); ("env", VDict [("B", VStr "2")])]
           (VStr "app") fresh_platform); reflexivity.
Defined.

(** C4 for the TCP route the application already has. *)
Lemma reconciliation_idempotent_witness :
  creations
    (snd (_build_new_requested_routes CPython.urlparse CPython.int
            (to_json organization) (to_json space) (to_json app)
            (map to_json (routes_of routed_platform (guid app)))
            (VList [requested "//tcp-domain.example.com:4444"])
            routed_platform))
  = creations routed_platform.
Proof.
  eapply (proj1 (reconciliation_idempotent CPython.urlparse CPython.int
                   (to_json organization) (to_json space))).
  - vm_compute. reflexivity.
  - vm_compute. reflexivity.
  - vm_compute. reflexivity.
  - vm_compute. reflexivity.
  - constructor; [vm_compute; reflexivity | constructor].
Defined.

(** C5 for an application with two routes, one of them shared. *)
Lemma no_route_detaches_all_witness :
  let r := route_application (to_json organization) (to_json space)
             (to_json app)
             (VDict [("name", VStr "app"); ("no-route", VBool true)])
             routed_platform in
  fst r = Ok tt
  /\ fst (app_routes (to_json app) (snd r)) = Ok []
  /\ routes (snd r) = routes routed_platform
  /\ log (snd r) = [apps_remove_route (VStr "app-1") (VStr "route-1");
                    apps_remove_route (VStr "app-1") (VStr "route-2")].
Proof.
  apply (no_route_detaches_all CPython.urlparse CPython.int
           (to_json organization) (to_json space) app
           [("name", VStr "app"); ("no-route", VBool true)] routed_platform).
  reflexivity.
Defined.

(** C6, amended, for a random route on a domain that is no TCP domain. *)
Lemma default_route_created_witness :
  let r := route_application (to_json organization) (to_json space)
             (to_json app)
             (VDict [("name", VStr "app"); ("random-route", VBool true)])
             hosting_platform in
  fst r = Ok tt
  /\ log (snd r)
     = [routes_create_host_route (VStr "domain-shared") (VStr "space-1")
          (VStr "app-1700000000") (VStr "");
        apps_associate_route (VStr "app-1") (VStr "guid-0")]
  /\ creations (snd r)
     = [routes_create_host_route (VStr "domain-shared") (VStr "space-1")
          (VStr "app-1700000000") (VStr "")]
  /\ route_mappings (snd r) = [("app-1", "guid-0")]
  /\ exists e,
       routes (snd r) = [{| guid := "guid-0"; entity := e |}]
       /\ assoc_get "domain_guid" e = Some (VStr "domain-shared").
Proof.
  apply (default_route_created CPython.urlparse CPython.int (to_json organization)
           space app [("name", VStr "app"); ("random-route", VBool true)]
           (VStr "app") hosting_platform);
    [reflexivity | left; reflexivity | reflexivity | reflexivity
    | reflexivity].
Defined.

(** C7 for a route with a port and a path, with no domain at all. *)
Lemma path_and_port_conflict_witness :
  requested_route_body CPython.urlparse CPython.int [] [] (to_json space)
    (to_json app) [] (requested "//tcp-domain.example.com:4444/custom")
    fresh_platform
  = (Raise (AssertionError
              (PortAndPath (requested "//tcp-domain.example.com:4444/custom"))),
     fresh_platform).
Proof.
  apply (path_and_port_conflict CPython.urlparse CPython.int
           (requested "//tcp-domain.example.com:4444/custom")
           "tcp-domain.example.com" (VInt 4444) "/custom");
    [reflexivity | discriminate | discriminate | exact []].
Defined.

(** C8, amended, for a docker entry. *)
Lemma push_processes_entries_witness :
  exists calls,
    log (snd (push_entry CPython.urlparse CPython.int (to_json organization)
                (to_json space) docker_entry (pushing docker_entry)))
    = (calls ++ [apps_stop; apps_start])%list.
Proof.
  apply (proj1 (proj2 (push_processes_entries CPython.urlparse CPython.int
                         (to_json organization) (to_json space))));
    reflexivity.
Defined.

(** C9 for a stack that does not exist, and for one that does. *)
Lemma stack_resolved_by_name_witness :
  _build_request_from_manifest
    (VDict [("name", VStr "app"); ("stack", VStr "windows2016")])
    fresh_platform
  = (Raise (NotFound "stack"), fresh_platform)
  /\ _build_request_from_manifest
       (VDict [("name", VStr "app"); ("stack", VStr "cflinuxfs3")])
       fresh_platform
     = (Ok [("name", VStr "app"); ("stack", VStr "cflinuxfs3");
            ("stack_guid", VStr "stack-1")], fresh_platform).
Proof.
  split.
  - apply (stack_resolved_by_name
             [("name", VStr "app"); ("stack", VStr "windows2016")]
             (VStr "windows2016") fresh_platform). reflexivity.
  - apply (stack_resolved_by_name
             [("name", VStr "app"); ("stack", VStr "cflinuxfs3")]
             (VStr "cflinuxfs3") fresh_platform); reflexivity.
Defined.

(** C10 for a host route that none of the existing routes matches. *)
Lemma existing_routes_block_creation_witness :
  creations
    (snd (route_application (to_json organization) (to_json space)
            (to_json app) (declaring "//myhost.shared.example.com/custom")
            routed_platform))
  = creations routed_platform.
Proof.
  apply (existing_routes_block_creation CPython.urlparse CPython.int
           (to_json organization) (to_json space) (to_json app)
           (declaring "//myhost.shared.example.com/custom")
           (map to_json (routes_of routed_platform (guid app)))
           routed_platform); [reflexivity | discriminate].
Defined.

(* ================================================================== *)
(** * Further properties of the methods *)
(* ================================================================== *)

(** ** Strings *)

Lemma index_char_cons (c b : ascii) (s : string) :
  index 0 (String c "") (String b s)
  = if Ascii.eqb c b then Some 0%nat
    else option_map S (index 0 (String c "") s).
Proof.
  simpl. destruct (ascii_dec c b) as [->|N].
  - rewrite Ascii.eqb_refl. now destruct s.
  - apply Ascii.eqb_neq in N. rewrite N.
    destruct (index 0 (String c "") s); reflexivity.
Qed.

Lemma index_char_nil (c : ascii) : index 0 (String c "") "" = None.
Proof. reflexivity. Qed.

(** The first occurrence of a character that a prefix does not have is
    right after the prefix. *)
Lemma index_char_append (c : ascii) (d t : string) :
  index 0 (String c "") d = None ->
  index 0 (String c "") (d ++ String c t) = Some (String.length d).
Proof.
  induction d as [|b d IH]; intros H.
  - change ("" ++ String c t) with (String c t).
    rewrite index_char_cons, Ascii.eqb_refl. reflexivity.
  - change (String b d ++ String c t) with (String b (d ++ String c t)).
    rewrite index_char_cons in *.
    destruct (Ascii.eqb c b); [discriminate|].
    destruct (index 0 (String c "") d); [discriminate|].
    now rewrite IH.
Qed.

Lemma substring_all (s : string) : substring 0 (String.length s) s = s.
Proof. induction s as [|b s IH]; simpl; [reflexivity | now rewrite IH]. Qed.

Lemma substring_prefix (d x : string) :
  substring 0 (String.length d) (d ++ x) = d.
Proof.
  induction d as [|b d IH]; simpl; [now destruct x | now rewrite IH].
Qed.

Lemma substring_suffix (d x : string) (n : nat) :
  substring (String.length d) n (d ++ x) = substring 0 n x.
Proof. induction d as [|b d IH]; simpl; [reflexivity | exact IH]. Qed.

Lemma length_append (d x : string) :
  String.length (d ++ x) = (String.length d + String.length x)%nat.
Proof. induction d as [|b d IH]; simpl; [reflexivity | now rewrite IH]. Qed.

(** A text splits around the first occurrence of a character, and the part
    before does not have the character. *)
Lemma index_char_split (c : ascii) (s : string) :
  forall k,
    index 0 (String c "") s = Some k ->
    s = (substring 0 k s
         ++ String c (substring (S k) (String.length s - S k) s))%string
    /\ index 0 (String c "") (substring 0 k s) = None
    /\ (k < String.length s)%nat.
Proof.
  induction s as [|b s IH]; intros k H; [discriminate|].
  rewrite index_char_cons in H.
  destruct (Ascii.eqb_spec c b) as [->|N].
  - injection H as <-. simpl. rewrite Nat.sub_0_r, substring_all.
    repeat split. lia.
  - destruct (index 0 (String c "") s) as [j|] eqn:E; [|discriminate].
    injection H as <-. destruct (IH j eq_refl) as (S1 & S2 & S3).
    cbn [substring String.length Nat.sub append]. repeat split.
    + f_equal. exact S1.
    + rewrite index_char_cons. apply Ascii.eqb_neq in N. rewrite N, S2.
      reflexivity.
    + lia.
Qed.

Lemma slice_bound_nat (s : string) (k : nat) :
  (k <= String.length s)%nat -> slice_bound s (Z.of_nat k) = k.
Proof.
  intros H. unfold slice_bound, str_len.
  destruct (Z.ltb_spec (Z.of_nat k) 0); lia.
Qed.

Lemma substring_after (c : ascii) (d t : string) (n : nat) :
  substring (S (String.length d)) n (d ++ String c t) = substring 0 n t.
Proof. induction d as [|b d IH]; simpl; [reflexivity | exact IH]. Qed.

(** ** Splitting a requested route *)

Section SplitRoute.
Variable urlparse : value -> result parse_result.
Variable py_int : string -> result Z.

(** X1.  When the network location of a requested route is a domain, a
    colon and a port text of two characters or more, where the domain is
    not empty and has no colon, [_split_route] returns the domain, the port
    that [int] reads from the text, and the path, the path [/] counting as
    none. *)
Theorem split_route_domain_and_port requested_route r domain port_text n
    route_path :
  getitem requested_route "route" = Ok r ->
  urlparse r
  = Ok {| netloc := domain ++ ":" ++ port_text; path := route_path |} ->
  domain <> "" ->
  str_contains ":" domain = false ->
  (2 <= String.length port_text)%nat ->
  py_int port_text = Ok n ->
  _split_route urlparse py_int requested_route
  = Ok (domain, VInt n, if String.eqb route_path "/" then "" else route_path).
Proof.
  intros G U D C L I. unfold _split_route. rewrite G. simpl. rewrite U.
  cbn [rbind netloc path].
  change (domain ++ ":" ++ port_text) with (domain ++ String ":" port_text).
  assert (F : str_find ":" (domain ++ String ":" port_text)
              = Z.of_nat (String.length domain)).
  { unfold str_find. unfold str_contains in C.
    rewrite index_char_append; [reflexivity|].
    destruct (index 0 ":" domain); [discriminate | reflexivity]. }
  rewrite F.
  assert (N : str_len (domain ++ String ":" port_text)
              = Z.of_nat (String.length domain) + 1
                + Z.of_nat (String.length port_text)).
  { unfold str_len. rewrite length_append. simpl. lia. }
  assert (P : (0 < String.length domain)%nat).
  { destruct domain; [congruence | simpl; lia]. }
  replace ((0 <? Z.of_nat (String.length domain))
           && (Z.of_nat (String.length domain)
               <? str_len (domain ++ String ":" port_text) - 2)) with true
    by (symmetry; apply andb_true_intro; split; apply Z.ltb_lt; lia).
  assert (T : str_from (domain ++ String ":" port_text)
                (Z.of_nat (String.length domain) + 1) = port_text).
  { unfold str_from.
    replace (Z.of_nat (String.length domain) + 1)
      with (Z.of_nat (S (String.length domain))) by lia.
    rewrite slice_bound_nat by (rewrite length_append; simpl; lia).
    rewrite substring_after, length_append. simpl.
    replace (String.length domain + S (String.length port_text)
             - S (String.length domain))%nat
      with (String.length port_text) by lia.
    apply substring_all. }
  rewrite T, I. cbn [rbind]. unfold str_upto.
  rewrite slice_bound_nat by (rewrite length_append; lia).
  now rewrite substring_prefix.
Qed.

(** X2.  When the network location has its first colon at the very start,
    or followed by one character at most, [_split_route] raises the
    assertion of line 157: a port of a single digit is an invalid format. *)
Theorem split_route_invalid_format requested_route r domain port_text
    route_path :
  getitem requested_route "route" = Ok r ->
  urlparse r
  = Ok {| netloc := domain ++ ":" ++ port_text; path := route_path |} ->
  str_contains ":" domain = false ->
  domain = "" \/ (String.length port_text <= 1)%nat ->
  _split_route urlparse py_int requested_route
  = Raise (AssertionError (InvalidRouteFormat requested_route)).
Proof.
  intros G U C B. unfold _split_route. rewrite G. simpl. rewrite U.
  cbn [rbind netloc path].
  change (domain ++ ":" ++ port_text) with (domain ++ String ":" port_text).
  assert (F : str_find ":" (domain ++ String ":" port_text)
              = Z.of_nat (String.length domain)).
  { unfold str_find. unfold str_contains in C.
    rewrite index_char_append; [reflexivity|].
    destruct (index 0 ":" domain); [discriminate | reflexivity]. }
  rewrite F.
  assert (N : str_len (domain ++ String ":" port_text)
              = Z.of_nat (String.length domain) + 1
                + Z.of_nat (String.length port_text)).
  { unfold str_len. rewrite length_append. simpl. lia. }
  replace ((0 <? Z.of_nat (String.length domain))
           && (Z.of_nat (String.length domain)
               <? str_len (domain ++ String ":" port_text) - 2)) with false.
  - replace (0 <=? Z.of_nat (String.length domain)) with true
      by (symmetry; apply Z.leb_le; lia).
    reflexivity.
  - symmetry. apply andb_false_iff. destruct B as [->|B].
    + left. reflexivity.
    + right. apply Z.ltb_ge. lia.
Qed.

(** X3.  Whatever [_split_route] returns, the path is not [/], the domain
    has no colon, and the port is [None] or an integer. *)
Theorem split_route_result requested_route domain port route_path :
  _split_route urlparse py_int requested_route
  = Ok (domain, port, route_path) ->
  route_path <> "/"
  /\ str_contains ":" domain = false
  /\ (port = VNone \/ exists n, port = VInt n).
Proof.
  unfold _split_route.
  destruct (getitem requested_route "route") as [r|e]; [|discriminate].
  simpl. destruct (urlparse r) as [[nl pa]|e]; [|discriminate].
  cbn [rbind netloc path]. unfold str_find, str_contains.
  assert (Q : (if String.eqb pa "/" then "" else pa) <> "/").
  { destruct (String.eqb_spec pa "/"); [discriminate | assumption]. }
  destruct (index 0 ":" nl) as [k|] eqn:E.
  - destruct (index_char_split _ _ _ E) as (_ & S2 & S3).
    destruct ((0 <? Z.of_nat k) && (Z.of_nat k <? str_len nl - 2)).
    + destruct (py_int _) as [n|e]; [|discriminate].
      cbn [rbind]. intros [= <- <- <-]. repeat split; [exact Q| |eauto].
      unfold str_upto. rewrite slice_bound_nat by lia. now rewrite S2.
    + replace (0 <=? Z.of_nat k) with true
        by (symmetry; apply Z.leb_le; lia).
      discriminate.
  - simpl. intros [= <- <- <-]. repeat split; [exact Q | now rewrite E | auto].
Qed.

End SplitRoute.

(** ** Resolving a domain *)

(** The host and the domain that [resolve_in] cuts out of a route. *)
Lemma resolve_in_shape route scopes host domain_name domain :
  resolve_in route scopes = Ok (host, domain_name, domain) ->
  exists h n domains,
    host = VStr h /\ domain_name = VStr n
    /\ In domains scopes
    /\ assoc_get n domains = Some domain
    /\ ((h = "" /\ n = route)
        \/ (h <> "" /\ route = h ++ "." ++ n /\ str_contains "." h = false)).
Proof.
  induction scopes as [|domains scopes IH]; simpl; [discriminate|].
  destruct (assoc_get route domains) as [d|] eqn:A.
  - intros [= <- <- <-]. exists "", route, domains. auto 10.
  - assert (K : resolve_in route scopes = Ok (host, domain_name, domain) ->
                exists h n domains0,
                  host = VStr h /\ domain_name = VStr n
                  /\ (domains = domains0 \/ In domains0 scopes)
                  /\ assoc_get n domains0 = Some domain
                  /\ ((h = "" /\ n = route)
                      \/ (h <> "" /\ route = h ++ "." ++ n
                          /\ str_contains "." h = false))).
    { intros H. destruct (IH H) as (h & n & ds & ? & ? & ? & ? & ?).
      exists h, n, ds. auto 10. }
    unfold str_find.
    destruct (index 0 "." route) as [k|] eqn:E; [|exact K].
    destruct ((0 <? Z.of_nat k) && (Z.of_nat k <? str_len route - 2)) eqn:C;
      [|exact K].
    destruct (assoc_get (str_from route (Z.of_nat k + 1)) domains)
      as [d|] eqn:B; [|exact K].
    intros [= <- <- <-].
    destruct (index_char_split _ _ _ E) as (S1 & S2 & S3).
    apply andb_prop in C. destruct C as [C1 _]. apply Z.ltb_lt in C1.
    assert (U : str_upto route (Z.of_nat k) = substring 0 k route).
    { unfold str_upto. now rewrite slice_bound_nat by lia. }
    assert (F : str_from route (Z.of_nat k + 1)
                = substring (S k) (String.length route - S k) route).
    { unfold str_from.
      replace (Z.of_nat k + 1) with (Z.of_nat (S k)) by lia.
      now rewrite slice_bound_nat by lia. }
    exists (str_upto route (Z.of_nat k)), (str_from route (Z.of_nat k + 1)),
      domains.
    repeat split; auto. right. rewrite U, F. repeat split.
    + destruct k as [|k]; [lia|]. destruct route; [simpl in S3; lia|].
      discriminate.
    + exact S1.
    + unfold str_contains. now rewrite S2.
Qed.

(** X4.  A route that resolves is the name of the domain returned, with an
    empty host, or a host without dot, a dot and the name of the domain
    returned; and the domain is the one of that name among the private
    domains or among the shared domains. *)
Theorem resolve_domain_sound route private_domains shared_domains host
    domain_name domain :
  _resolve_domain route private_domains shared_domains
  = Ok (host, domain_name, domain) ->
  exists h n,
    host = VStr h /\ domain_name = VStr n
    /\ (assoc_get n private_domains = Some domain
        \/ assoc_get n shared_domains = Some domain)
    /\ ((h = "" /\ n = route)
        \/ (h <> "" /\ route = h ++ "." ++ n /\ str_contains "." h = false)).
Proof.
  intros H. apply resolve_in_shape in H.
  destruct H as (h & n & domains & Hh & Hn & I & A & S).
  exists h, n. repeat split; auto.
  destruct I as [<-|[<-|[]]]; auto.
Qed.

(** X5.  The private domains come first: a route that resolves among them
    alone resolves the same way whatever the shared domains are, also when
    a shared domain has the whole route as its name; a route that does not
    is resolved among the shared domains alone. *)
Theorem resolve_domain_private_first route private_domains shared_domains :
  _resolve_domain route private_domains shared_domains
  = match _resolve_domain route private_domains [] with
    | Ok found => Ok found
    | Raise _ => _resolve_domain route [] shared_domains
    end.
Proof.
  unfold _resolve_domain. simpl.
  destruct (assoc_get route private_domains); [reflexivity|].
  destruct ((0 <? str_find "." route)
            && (str_find "." route <? str_len route - 2));
    [destruct (assoc_get _ private_domains); reflexivity | reflexivity].
Qed.

(** ** The outcome of a requested route *)

Section Outcomes.
Variable urlparse : value -> result parse_result.
Variable py_int : string -> result Z.

(** X6.  A requested route with a port always ends in one of three
    assertions and changes nothing: the one of line 122 when it has a
    path, else the one of line 175 when its domain does not resolve, else
    the one of line 125.  The assertion of line 130, for a port on a domain
    that is no TCP domain, is never reached. *)
Theorem port_route_outcome private_domains shared_domains space app
    existing_routes requested_route route n route_path p :
  _split_route urlparse py_int requested_route
  = Ok (route, VInt n, route_path) ->
  requested_route_body urlparse py_int private_domains shared_domains space
    app existing_routes requested_route p
  = (Raise (AssertionError
              (if 0 <? str_len route_path then PortAndPath requested_route
               else match _resolve_domain route private_domains
                            shared_domains with
                    | Ok (_, domain_name, _) =>
                        PortAndHost requested_route domain_name
                    | Raise _ => DomainNotFound route
                    end)), p).
Proof.
  intros S. unfold requested_route_body. run. rewrite S. simpl.
  rewrite andb_true_r.
  destruct (0 <? str_len route_path); simpl; [reflexivity|].
  unfold _resolve_domain.
  destruct (resolve_in route [private_domains; shared_domains])
    as [[[host domain_name] domain]|e] eqn:R; simpl.
  - destruct (resolve_in_strings _ _ _ _ _ R) as (h & d & -> & ->).
    reflexivity.
  - now rewrite (resolve_in_error _ _ _ R).
Qed.

(** X7.  A requested route without port whose domain is a TCP domain is
    refused with the assertion of line 132, and nothing is changed. *)
Theorem tcp_domain_requires_port private_domains shared_domains space app
    existing_routes requested_route route route_path host domain_name domain
    t p :
  _split_route urlparse py_int requested_route
  = Ok (route, VNone, route_path) ->
  _resolve_domain route private_domains shared_domains
  = Ok (host, domain_name, domain) ->
  router_group_type domain = Ok t ->
  py_eq t (VStr "tcp") = true ->
  requested_route_body urlparse py_int private_domains shared_domains space
    app existing_routes requested_route p
  = (Raise (AssertionError (PortMissing requested_route)), p).
Proof.
  intros S R T E. unfold requested_route_body. run. rewrite S. simpl.
  rewrite andb_false_r. rewrite R. simpl. rewrite T. simpl. now rewrite E.
Qed.

(** X8.  A requested route without port, on a domain that is no TCP
    domain, is passed over in silence as soon as the application has a
    route, whichever it is: the first existing route is compared, the
    outcome of the comparison is not used, no call is issued and the
    processing succeeds. *)
Theorem host_route_passed_over private_domains shared_domains space app
    (existing : resource) others requested_route route route_path host
    domain_name (domain : resource) domain_guid existing_host p :
  _split_route urlparse py_int requested_route
  = Ok (route, VNone, route_path) ->
  _resolve_domain route private_domains shared_domains
  = Ok (host, domain_name, to_json domain) ->
  tcp_typed domain = false ->
  assoc_get "domain_guid" (entity existing) = Some domain_guid ->
  assoc_get "host" (entity existing) = Some existing_host ->
  requested_route_body urlparse py_int private_domains shared_domains space
    app (to_json existing :: others) requested_route p
  = (Ok tt, p).
Proof.
  intros S R T D H. unfold requested_route_body. run. rewrite S. simpl.
  rewrite andb_false_r. rewrite R. simpl.
  rewrite router_group_type_json. simpl.
  unfold tcp_typed in T. rewrite T. simpl. rewrite D. simpl.
  destruct (py_eq domain_guid (VStr (guid domain))); simpl;
    [rewrite H|]; reflexivity.
Qed.

End Outcomes.

(** ** Dictionaries keep their keys distinct *)

Lemma assoc_set_keys {A} (k k0 : string) (v : A) (d : list (string * A)) :
  In k0 (map fst (assoc_set k v d)) -> k0 = k \/ In k0 (map fst d).
Proof.
  induction d as [|[k1 v1] d IH]; simpl.
  - intros [<-|[]]. now left.
  - destruct (String.eqb_spec k k1) as [->|N]; simpl.
    + intros [<-|H]; auto.
    + intros [<-|H]; auto. destruct (IH H); auto.
Qed.

Lemma assoc_set_nodup {A} (k : string) (v : A) (d : list (string * A)) :
  NoDup (map fst d) -> NoDup (map fst (assoc_set k v d)).
Proof.
  induction d as [|[k1 v1] d IH]; simpl; intros N.
  - constructor; [intros [] | constructor].
  - inversion N as [|x l Hx Hl]; subst.
    destruct (String.eqb_spec k k1) as [->|D]; simpl.
    + now constructor.
    + constructor; [|now apply IH].
      intros H. destruct (assoc_set_keys _ _ _ _ H); [congruence | auto].
Qed.

Lemma assoc_update_nodup {A} (other d : list (string * A)) :
  NoDup (map fst d) -> NoDup (map fst (assoc_update d other)).
Proof.
  unfold assoc_update. revert d.
  induction other as [|[k v] other IH]; intros d N; simpl; [exact N|].
  apply IH. now apply assoc_set_nodup.
Qed.

Lemma assoc_del_keys {A} (k k0 : string) (d : list (string * A)) :
  In k0 (map fst (assoc_del k d)) -> In k0 (map fst d).
Proof.
  induction d as [|[k1 v1] d IH]; simpl; [auto|].
  destruct (String.eqb k k1); simpl; [auto|]. intros [<-|H]; auto.
Qed.

Lemma assoc_del_nodup {A} (k : string) (d : list (string * A)) :
  NoDup (map fst d) -> NoDup (map fst (assoc_del k d)).
Proof.
  induction d as [|[k1 v1] d IH]; simpl; intros N; [exact N|].
  inversion N as [|x l Hx Hl]; subst.
  destruct (String.eqb k k1); simpl; [exact Hl|].
  constructor; [|now apply IH]. intros H. apply Hx. now apply assoc_del_keys in H.
Qed.

(** A deleted key is gone. *)
Lemma assoc_get_del_same {A} (k : string) (d : list (string * A)) :
  NoDup (map fst d) -> assoc_get k (assoc_del k d) = None.
Proof.
  induction d as [|[k1 v1] d IH]; simpl; intros N; [reflexivity|].
  inversion N as [|x l Hx Hl]; subst.
  destruct (String.eqb_spec k k1) as [->|D]; simpl.
  - now apply assoc_get_absent.
  - destruct (String.eqb_spec k k1); [congruence | now apply IH].
Qed.

(** A copy of a dictionary has the entries of the dictionary. *)
Lemma assoc_get_copy {A} (k : string) (m : list (string * A)) :
  NoDup (map fst m) -> assoc_get k (assoc_update [] m) = assoc_get k m.
Proof.
  intros N. rewrite assoc_get_update, (assoc_get_rev _ _ N). simpl.
  destruct (assoc_get k m); reflexivity.
Qed.

(** ** The request of an application *)

(** The cases of lines 65-70, for a request [r] whose [docker] key, once
    deleted, is gone ([D]). *)
Ltac docker_done D :=
  intros [= <- <-]; rewrite ?assoc_get_set; simpl;
  split; [exact D | reflexivity].

Ltac docker_cases r D :=
  destruct (is_none (dget r "docker")); simpl; [docker_done D|];
  destruct (contains "image" (dget r "docker")) as [[|]|?]; simpl;
  try discriminate; try solve [docker_done D];
  destruct (getitem (dget r "docker") "image"); simpl; try discriminate;
  destruct (contains "username" (dget r "docker")) as [[|]|?]; simpl;
  try discriminate; try solve [docker_done D];
  destruct (contains "password" (dget r "docker")) as [[|]|?]; simpl;
  try discriminate; try solve [docker_done D];
  destruct (getitem (dget r "docker") "username"); simpl; try discriminate;
  destruct (getitem (dget r "docker") "password"); simpl; try discriminate;
  docker_done D.

(** X9.  A request built from a manifest entry never has a [docker] key,
    with or without an image in the [docker] block of the entry, and
    building it changes nothing on the platform. *)
Theorem request_has_no_docker_key (app_manifest : value)
    (request : list (string * value)) (p q : platform) :
  _build_request_from_manifest app_manifest p = (Ok request, q) ->
  assoc_get "docker" request = None /\ q = p.
Proof.
  unfold _build_request_from_manifest, stacks_get_first. run.
  destruct (dict_update [] app_manifest) as [r0|e] eqn:U; simpl;
    [|discriminate].
  assert (N0 : NoDup (map fst r0)).
  { destruct app_manifest; try discriminate. injection U as <-.
    apply assoc_update_nodup. constructor. }
  destruct (contains "stack" app_manifest) as [[|]|e]; simpl;
    try discriminate.
  - destruct (getitem app_manifest "stack") as [name|e]; simpl;
      [|discriminate].
    destruct (find (matches [("name", name)]) (stacks (known p))) as [s|];
      simpl; [|discriminate].
    pose proof (assoc_get_del_same "docker" _
                  (assoc_set_nodup "stack_guid" (VStr (guid s)) r0 N0)) as D.
    set (r := assoc_set "stack_guid" (VStr (guid s)) r0) in *.
    docker_cases r D.
  - pose proof (assoc_get_del_same "docker" r0 N0) as D.
    docker_cases r0 D.
Qed.

Lemma assoc_get_set_other {A} (k k' : string) (v : A) (d : list (string * A)) :
  k <> k' -> assoc_get k (assoc_set k' v d) = assoc_get k d.
Proof.
  intros N. rewrite assoc_get_set.
  destruct (String.eqb_spec k k'); [congruence | reflexivity].
Qed.

Lemma assoc_get_set_same {A} (k : string) (v : A) (d : list (string * A)) :
  assoc_get k (assoc_set k v d) = Some v.
Proof. now rewrite assoc_get_set, String.eqb_refl. Qed.

(** X10.  For a manifest entry without stack whose [docker] block has an
    image, the request is built without a call and carries the image as
    [docker_image], [diego] set to true, the credentials as
    [docker_credentials] when the block has both a user name and a
    password, and every other key of the entry, but [docker], with its
    value. *)
Theorem docker_image_request (m dk : list (string * value)) (image : value)
    (p : platform) :
  NoDup (map fst m) ->
  assoc_get "stack" m = None ->
  assoc_get "docker" m = Some (VDict dk) ->
  assoc_get "image" dk = Some image ->
  exists request,
    _build_request_from_manifest (VDict m) p = (Ok request, p)
    /\ assoc_get "docker_image" request = Some image
    /\ assoc_get "diego" request = Some (VBool true)
    /\ assoc_get "docker_credentials" request
       = match assoc_get "username" dk, assoc_get "password" dk with
         | Some u, Some w => Some (VDict [("username", u); ("password", w)])
         | _, _ => assoc_get "docker_credentials" m
         end
    /\ forall k,
         k <> "docker" -> k <> "docker_image" -> k <> "diego" ->
         k <> "docker_credentials" ->
         assoc_get k request = assoc_get k m.
Proof.
  intros N S D I.
  assert (C : forall k, k <> "docker" ->
              assoc_get k (assoc_del "docker" (assoc_update [] m))
              = assoc_get k m).
  { intros k Hk. now rewrite assoc_get_del, assoc_get_copy. }
  unfold _build_request_from_manifest. run. rewrite S. simpl.
  unfold dget. rewrite (assoc_get_copy _ _ N), D. simpl. rewrite I. simpl.
  destruct (assoc_get "username" dk) as [u|]; simpl;
    [destruct (assoc_get "password" dk) as [w|]; simpl|];
    eexists; (split; [reflexivity|]);
    repeat split;
    try (intros k K1 K2 K3 K4);
    repeat first [ rewrite assoc_get_set_same
                 | rewrite assoc_get_set_other by congruence ];
    try reflexivity; apply C; congruence.
Qed.

(** X11.  A [docker] block without image is dropped in silence: the
    request is the manifest entry without its [docker] key, and nothing
    stands for the block in it. *)
Theorem docker_block_without_image_dropped (m : list (string * value))
    (docker : value) (p : platform) :
  NoDup (map fst m) ->
  assoc_get "stack" m = None ->
  assoc_get "docker" m = Some docker ->
  contains "image" docker = Ok false ->
  exists request,
    _build_request_from_manifest (VDict m) p = (Ok request, p)
    /\ assoc_get "docker" request = None
    /\ forall k, k <> "docker" -> assoc_get k request = assoc_get k m.
Proof.
  intros N S D I.
  unfold _build_request_from_manifest. run. rewrite S. simpl.
  unfold dget. rewrite (assoc_get_copy _ _ N), D.
  exists (assoc_del "docker" (assoc_update [] m)).
  split; [|split].
  - destruct (is_none docker); simpl; [reflexivity|]. now rewrite I.
  - apply assoc_get_del_same, assoc_update_nodup. constructor.
  - intros k K. now rewrite assoc_get_del, assoc_get_copy.
Qed.

(** A manifest entry without stack and without [docker] block gives its
    copy as the request. *)
Lemma build_request_plain (m : list (string * value)) (p : platform) :
  assoc_get "stack" m = None ->
  assoc_get "docker" m = None ->
  _build_request_from_manifest (VDict m) p = (Ok (assoc_update [] m), p).
Proof.
  intros S D.
  assert (X : assoc_get "docker" (assoc_update [] m) = None)
    by now rewrite assoc_get_update_none.
  unfold _build_request_from_manifest. run. rewrite S. simpl.
  unfold dget. rewrite X. simpl. now rewrite (assoc_del_absent _ _ X).
Qed.

(** X12.  Creating the application of a manifest entry without stack and
    without [docker] block issues one call, which creates an application
    with the entries of the manifest entry, the id of the space as
    [space_guid], and [/] as the endpoint of the health check when its type
    is [http] and the entry gives no endpoint; an endpoint that is given
    stays. *)
Theorem create_application_request (space : resource)
    (m : list (string * value)) (p : platform) :
  NoDup (map fst m) ->
  assoc_get "stack" m = None ->
  assoc_get "docker" m = None ->
  let r := _create_application (to_json space) (VDict m) p in
  exists request,
    fst r = Ok (to_json {| guid := next_guid p; entity := request |})
    /\ log (snd r) = (log p ++ [apps_create (VDict request)])%list
    /\ applications (snd r)
       = (applications p
          ++ [{| guid := next_guid p; entity := request |}])%list
    /\ assoc_get "space_guid" request = Some (VStr (guid space))
    /\ assoc_get "health-check-http-endpoint" request
       = (if py_eq (dget m "health-check-type") (VStr "http")
             && is_none (dget m "health-check-http-endpoint")
          then Some (VStr "/")
          else assoc_get "health-check-http-endpoint" m)
    /\ forall k,
         k <> "space_guid" -> k <> "health-check-http-endpoint" ->
         assoc_get k request = assoc_get k m.
Proof.
  intros N S D r.
  set (r1 := assoc_set "space_guid" (VStr (guid space)) (assoc_update [] m)).
  assert (G : forall k, k <> "space_guid" ->
              assoc_get k r1 = assoc_get k m).
  { intros k K. unfold r1. now rewrite assoc_get_set_other, assoc_get_copy. }
  assert (T : dget r1 "health-check-type" = dget m "health-check-type").
  { unfold dget. now rewrite G by discriminate. }
  assert (E : dget r1 "health-check-http-endpoint"
              = dget m "health-check-http-endpoint").
  { unfold dget. now rewrite G by discriminate. }
  set (request := if py_eq (dget m "health-check-type") (VStr "http")
                     && is_none (dget m "health-check-http-endpoint")
                  then assoc_set "health-check-http-endpoint" (VStr "/") r1
                  else r1).
  assert (Q : r = client_apps_create (VDict request) p).
  { unfold r, _create_application. unfold bind.
    rewrite (build_request_plain _ _ S D). simpl. fold r1.
    now rewrite T, E. }
  exists request. rewrite Q.
  unfold client_apps_create, record, fresh_guid, set_applications, next_guid.
  run. repeat split; unfold request;
    destruct (py_eq (dget m "health-check-type") (VStr "http")
              && is_none (dget m "health-check-http-endpoint"));
    try (intros k K1 K2);
    repeat first [ rewrite assoc_get_set_same
                 | rewrite assoc_get_set_other by congruence ];
    try reflexivity; try (apply G; congruence);
    unfold r1; now rewrite assoc_get_set_same.
Qed.

(** X13.  [_merge_environment], given an application and a manifest entry,
    returns the environment of the application overlaid with the [env] of
    the entry: a key of [env] has the value the entry gives it, any other
    key the value the application has for it; a missing
    [environment_json] or [env] counts as empty. *)
Theorem merge_environment_lookup (a : resource) (m : list (string * value))
    (existing declared : list (string * value)) :
  mapping_or_empty (assoc_get "environment_json" (entity a)) = Some existing ->
  mapping_or_empty (assoc_get "env" m) = Some declared ->
  NoDup (map fst existing) ->
  NoDup (map fst declared) ->
  exists environment,
    _merge_environment (to_json a) (VDict m) = Ok environment
    /\ NoDup (map fst environment)
    /\ forall k,
         assoc_get k environment
         = match assoc_get k declared with
           | Some v => Some v
           | None => assoc_get k existing
           end.
Proof.
  intros E D N N'.
  exists (assoc_update (assoc_update [] existing) declared).
  split; [|split].
  - unfold _merge_environment. simpl.
    destruct (assoc_get "environment_json" (entity a)) as [[| | | | |d]|];
      try discriminate; injection E as <-;
      (destruct (assoc_get "env" m) as [[| | | | |d']|];
       try discriminate; injection D as <-; reflexivity).
  - apply assoc_update_nodup, assoc_update_nodup. constructor.
  - intros k. rewrite !assoc_get_update. simpl.
    rewrite (assoc_get_rev _ _ N), (assoc_get_rev _ _ N').
    destruct (assoc_get k declared); [reflexivity|].
    destruct (assoc_get k existing); reflexivity.
Qed.

(** X14.  [_update_application], given a manifest entry without stack and
    without [docker] block and an application, in the order of its
    parameters, issues one update call for the id of the application.  The
    request has the merged environment as [environment_json], [/] as the
    endpoint of the health check when its type is [http] and neither the
    entry nor the application has an endpoint, and every other key of the
    entry with its value. *)
Theorem update_application_request (a : resource) (m : list (string * value))
    (environment : list (string * value)) (p : platform) :
  NoDup (map fst m) ->
  assoc_get "stack" m = None ->
  assoc_get "docker" m = None ->
  _merge_environment (to_json a) (VDict m) = Ok environment ->
  exists request,
    log (snd (_update_application (VDict m) (to_json a) p))
    = (log p ++ [apps_update (VStr (guid a)) request])%list
    /\ assoc_get "environment_json" request = Some (VDict environment)
    /\ assoc_get "health-check-http-endpoint" request
       = (if py_eq (dget m "health-check-type") (VStr "http")
             && is_none (dget m "health-check-http-endpoint")
             && is_none (dget (entity a) "health_check_http_endpoint")
          then Some (VStr "/")
          else assoc_get "health-check-http-endpoint" m)
    /\ forall k,
         k <> "environment_json" -> k <> "health-check-http-endpoint" ->
         assoc_get k request = assoc_get k m.
Proof.
  intros N S D M.
  set (r1 := assoc_set "environment_json" (VDict environment)
               (assoc_update [] m)).
  assert (G : forall k, k <> "environment_json" ->
              assoc_get k r1 = assoc_get k m).
  { intros k K. unfold r1. now rewrite assoc_get_set_other, assoc_get_copy. }
  assert (T : dget r1 "health-check-type" = dget m "health-check-type").
  { unfold dget. now rewrite G by discriminate. }
  assert (E : dget r1 "health-check-http-endpoint"
              = dget m "health-check-http-endpoint").
  { unfold dget. now rewrite G by discriminate. }
  set (c := py_eq (dget m "health-check-type") (VStr "http")
            && is_none (dget m "health-check-http-endpoint")
            && is_none (dget (entity a) "health_check_http_endpoint")).
  set (request := if c
                  then assoc_set "health-check-http-endpoint" (VStr "/") r1
                  else r1).
  assert (Q : _update_application (VDict m) (to_json a) p
              = client_apps_update (VStr (guid a)) request p).
  { unfold _update_application. unfold bind.
    rewrite (build_request_plain _ _ S D). unfold lift. rewrite M.
    fold r1. rewrite T, E. unfold request, c, dget. simpl.
    destruct (py_eq _ (VStr "http") && is_none _); simpl; [|reflexivity].
    destruct (assoc_get "health_check_http_endpoint" (entity a)) as [h|];
      simpl; [destruct (is_none h)|]; reflexivity. }
  exists request. rewrite Q. split.
  - unfold client_apps_update, record. run.
    destruct (find (has_guid (guid a)) (applications p)); reflexivity.
  - repeat split; unfold request; destruct c;
      try (intros k K1 K2);
      repeat first [ rewrite assoc_get_set_same
                   | rewrite assoc_get_set_other by congruence ];
      try reflexivity; try (apply G; congruence);
      unfold r1; now rewrite assoc_get_set_same.
Qed.

(** ** Binding services *)

Lemma with_bindings_same (p : platform) : with_bindings p [] [] = p.
Proof.
  destruct p. unfold with_bindings. simpl. now rewrite !app_nil_r.
Qed.

(** The loop of lines 181-185 over the names of the services. *)
Lemma bind_each (space a : resource) (names : list value) :
  forall p,
    for_each names (fun service_name =>
      service_instance <-
        space_first_service_instance (to_json space) service_name ;;
      if is_none service_instance then
        raise (AssertionError (NoService service_instance))
      else
        g <- lift (guid_of (to_json a)) ;;
        i <- lift (guid_of service_instance) ;;
        client_service_bindings_create g i) p
    = (if snd (instances_of (service_instances (known p)) space names)
       then Ok tt else Raise (AssertionError (NoService VNone)),
       with_bindings p
         (map (fun i => (guid a, guid i))
            (fst (instances_of (service_instances (known p)) space names)))
         (map (fun i => service_bindings_create (VStr (guid a))
                          (VStr (guid i)))
            (fst (instances_of (service_instances (known p)) space names)))).
Proof.
  induction names as [|name names IH]; intros p.
  - simpl. unfold ret. now rewrite with_bindings_same.
  - cbn [for_each instances_of].
    unfold bind at 1. unfold space_first_service_instance at 1. run.
    destruct (find (matches [("name", name);
                             ("space_guid", VStr (guid space))])
                (service_instances (known p))) as [i|]; simpl.
    + unfold client_service_bindings_create, record, set_service_bindings.
      run. rewrite IH. simpl. f_equal.
      unfold with_bindings. simpl. now rewrite <- !app_assoc.
    + now rewrite with_bindings_same.
Qed.

(** X15.  [_bind_services] goes through the names under [services] in
    order: for each name with an instance in the space it issues one call
    that binds the application to the first such instance; at the first
    name without instance it raises the assertion of line 184, whose
    message is formatted with [None], not with the name, and the bindings
    made before stay.  Nothing else is changed, and a name listed twice is
    bound twice. *)
Theorem bind_services_outcome (space a : resource) (m : list (string * value))
    (names : list value) (p : platform) :
  get (VDict m) "services" (VList []) = Ok (VList names) ->
  let found := fst (instances_of (service_instances (known p)) space names) in
  _bind_services (to_json space) (to_json a) (VDict m) p
  = (if snd (instances_of (service_instances (known p)) space names)
     then Ok tt else Raise (AssertionError (NoService VNone)),
     with_bindings p
       (map (fun i => (guid a, guid i)) found)
       (map (fun i => service_bindings_create (VStr (guid a)) (VStr (guid i)))
          found)).
Proof.
  intros G found. unfold _bind_services. unfold bind at 1, lift at 1.
  rewrite G. unfold bind at 1, lift at 1. cbn [iter].
  apply bind_each.
Qed.

(** ** What client code keeps *)

Section Keeps.
Variable R : platform -> platform -> Prop.
Hypothesis R_refl : forall p, R p p.
Hypothesis R_trans : forall p q r, R p q -> R q r -> R p r.

Lemma keeps_ret {A} (a : A) : keeps R (ret a).
Proof. intros p. apply R_refl. Qed.

Lemma keeps_raise {A} (e : exn) : keeps R (@raise A e).
Proof. intros p. apply R_refl. Qed.

Lemma keeps_lift {A} (r : result A) : keeps R (lift r).
Proof. intros p. apply R_refl. Qed.

Lemma keeps_read {A} (f : platform -> A) : keeps R (read f).
Proof. intros p. apply R_refl. Qed.

Lemma keeps_bind {A B} (m : M A) (k : A -> M B) :
  keeps R m -> (forall a, keeps R (k a)) -> keeps R (bind m k).
Proof.
  intros Hm Hk p. unfold bind. specialize (Hm p).
  destruct (m p) as [[a|e] q]; simpl in *; [|exact Hm].
  apply R_trans with q; [exact Hm | apply Hk].
Qed.

Lemma keeps_for_each {A} (l : list A) (body : A -> M unit) :
  (forall x, keeps R (body x)) -> keeps R (for_each l body).
Proof.
  intros H. induction l as [|x l IH]; simpl.
  - apply keeps_ret.
  - apply keeps_bind; [apply H | intros _; exact IH].
Qed.

End Keeps.

Lemma routes_kept_refl (p : platform) : routes_kept p p.
Proof. repeat split. exists []. now rewrite app_nil_r. Qed.

Lemma routes_kept_trans (p q r : platform) :
  routes_kept p q -> routes_kept q r -> routes_kept p r.
Proof.
  intros (K1 & A1 & S1 & rs1 & R1) (K2 & A2 & S2 & rs2 & R2).
  repeat split; try congruence.
  exists (rs1 ++ rs2)%list. now rewrite R2, R1, app_assoc.
Qed.

Lemma associations_kept_refl (p : platform) : associations_kept p p.
Proof. exists []. now rewrite app_nil_r. Qed.

Lemma associations_kept_trans (p q r : platform) :
  associations_kept p q -> associations_kept q r -> associations_kept p r.
Proof.
  intros (m1 & M1) (m2 & M2). exists (m1 ++ m2)%list.
  now rewrite M2, M1, app_assoc.
Qed.

(** Structural steps of a proof that client code keeps a relation. *)
Ltac keeps_step Rr Rt :=
  match goal with
  | |- keeps _ (bind _ _) => apply (keeps_bind _ Rt); [|intros ?]
  | |- keeps _ (ret _) => apply (keeps_ret _ Rr)
  | |- keeps _ (raise _) => apply (keeps_raise _ Rr)
  | |- keeps _ (lift _) => apply (keeps_lift _ Rr)
  | |- keeps _ (read _) => apply (keeps_read _ Rr)
  | |- keeps _ (for_each _ _) => apply (keeps_for_each _ Rr Rt); intros ?
  | |- keeps _ (if ?b then _ else _) => destruct b
  | |- keeps _ (match ?x with _ => _ end) => destruct x
  end.

Lemma create_tcp_route_kept d s port :
  keeps routes_kept (client_routes_create_tcp_route d s port)
  /\ keeps associations_kept (client_routes_create_tcp_route d s port).
Proof.
  split; intros p; [repeat split; simpl; eauto | exists []; simpl];
    now rewrite ?app_nil_r.
Qed.

Lemma create_host_route_kept d s host route_path :
  keeps routes_kept (client_routes_create_host_route d s host route_path)
  /\ keeps associations_kept
       (client_routes_create_host_route d s host route_path).
Proof.
  split; intros p; [repeat split; simpl; eauto | exists []; simpl];
    now rewrite ?app_nil_r.
Qed.

Lemma associate_route_kept a r :
  keeps routes_kept (client_apps_associate_route a r)
  /\ keeps associations_kept (client_apps_associate_route a r).
Proof.
  split; intros p; unfold client_apps_associate_route; run;
    destruct (as_guid a); simpl; try destruct (as_guid r); simpl;
    try (apply routes_kept_refl || (repeat split; exists [];
                                    now rewrite app_nil_r));
    try (eexists; simpl; reflexivity);
    exists []; simpl; now rewrite app_nil_r.
Qed.

Lemma remove_route_kept a r :
  keeps routes_kept (client_apps_remove_route a r).
Proof.
  intros p. unfold client_apps_remove_route. run.
  destruct (as_guid a); simpl; [destruct (as_guid r); simpl|];
    repeat split; exists []; now rewrite app_nil_r.
Qed.

Lemma keeps_bind_lift (R : platform -> platform -> Prop) {A B}
    (r : result A) (k : A -> M B) :
  (forall p, R p p) ->
  (forall a, r = Ok a -> keeps R (k a)) ->
  keeps R (bind (lift r) k).
Proof.
  intros Rr H p. unfold bind, lift. destruct r as [a|e]; simpl.
  - now apply H.
  - apply Rr.
Qed.

Ltac keeps_routes :=
  repeat first
    [ apply create_tcp_route_kept | apply create_host_route_kept
    | apply associate_route_kept | apply remove_route_kept
    | keeps_step routes_kept_refl routes_kept_trans ].

Ltac keeps_associations :=
  repeat first
    [ apply create_tcp_route_kept | apply create_host_route_kept
    | apply associate_route_kept
    | keeps_step associations_kept_refl associations_kept_trans ].

Lemma build_default_route_kept space app random_route :
  keeps routes_kept (_build_default_route space app random_route)
  /\ keeps associations_kept (_build_default_route space app random_route).
Proof.
  split; unfold _build_default_route, shared_domains_list, time_seconds;
    [keeps_routes | keeps_associations].
Qed.

Section RouteFrame.
Variable urlparse : value -> result parse_result.
Variable py_int : string -> result Z.

Lemma build_new_requested_routes_kept (R : platform -> platform -> Prop)
    organization space app existing_routes requested_routes :
  (forall p, R p p) ->
  keeps R (_build_new_requested_routes urlparse py_int organization space
             app existing_routes requested_routes).
Proof.
  intros Rr p. rewrite build_new_requested_routes_frame. apply Rr.
Qed.

(** X16.  Route reconciliation never takes anything but associations away
    from the platform, whatever it is given and however it ends: the
    routes that existed are all still there, the applications, the service
    bindings and the catalog are the same. *)
Theorem route_application_keeps_routes organization space app app_manifest
    p :
  routes_kept p
    (snd (_route_application urlparse py_int organization space app
            app_manifest p)).
Proof.
  revert p. change (keeps routes_kept
                      (_route_application urlparse py_int organization space
                         app app_manifest)).
  unfold _route_application, app_routes, _remove_all_routes.
  repeat first
    [ apply (build_new_requested_routes_kept _ _ _ _ _ _ routes_kept_refl)
    | apply build_default_route_kept
    | apply remove_route_kept
    | keeps_step routes_kept_refl routes_kept_trans ].
Qed.

(** X17.  When [no-route] is not set, route reconciliation leaves every
    association in place, also those of routes the manifest entry does not
    declare: it only ever adds one. *)
Theorem route_application_keeps_associations organization space app
    app_manifest nr p :
  get app_manifest "no-route" (VBool false) = Ok nr ->
  truthy nr = false ->
  associations_kept p
    (snd (_route_application urlparse py_int organization space app
            app_manifest p)).
Proof.
  intros G T. revert p.
  change (keeps associations_kept
            (_route_application urlparse py_int organization space app
               app_manifest)).
  unfold _route_application, app_routes.
  apply (keeps_bind _ associations_kept_trans); [keeps_associations|].
  intros existing_routes.
  apply (keeps_bind_lift _ _ _ associations_kept_refl).
  intros a Ha. rewrite G in Ha. injection Ha as <-. rewrite T.
  repeat first
    [ apply (build_new_requested_routes_kept _ _ _ _ _ _
               associations_kept_refl)
    | apply build_default_route_kept
    | keeps_step associations_kept_refl associations_kept_trans ].
Qed.

(** X18.  For an application that has a route and a manifest entry without
    [routes] key, with [no-route] not set, route reconciliation raises
    [KeyError] for [routes] (line 89) and changes nothing. *)
Theorem routes_key_required organization space (a : resource)
    (m : list (string * value)) (p : platform) :
  flag m "no-route" = false ->
  assoc_get "routes" m = None ->
  routes_of p (guid a) <> [] ->
  _route_application urlparse py_int organization space (to_json a)
    (VDict m) p
  = (Raise (KeyError "routes"), p).
Proof.
  intros F N E. unfold _route_application, app_routes. run.
  fold (routes_of p (guid a)).
  assert (L : (Z.of_nat (List.length (map to_json (routes_of p (guid a))))
               =? 0) = false).
  { apply Z.eqb_neq. destruct (routes_of p (guid a)); [congruence|].
    simpl. lia. }
  unfold flag in F.
  destruct (assoc_get "no-route" m) as [v|]; simpl; [rewrite F|];
    rewrite N; simpl; rewrite L; reflexivity.
Qed.

(** An entry with a [path] key is never pushed to the end. *)
Lemma push_entry_path_fails organization space e p :
  contains "path" e = Ok true ->
  fst (push_entry urlparse py_int organization space e p) <> Ok tt.
Proof.
  intros P. unfold push_entry. run. rewrite P.
  unfold _push_application, _upload_application. run. unfold bind.
  destruct (_init_application space e p) as [[app|x] p1]; simpl;
    [|discriminate].
  destruct (_route_application _ _ _ _ app e p1) as [[[]|x] p2]; simpl;
    discriminate.
Qed.

(** X19.  A push of a manifest with an entry that has a [path] key never
    succeeds, wherever the entry stands in the manifest: the upload is not
    implemented. *)
Theorem push_with_path_fails space_id manifest_path (l : list value)
    (e : value) (p : platform) :
  assoc_get manifest_path (manifests (known p)) = Some l ->
  In e l ->
  contains "path" e = Ok true ->
  fst (push urlparse py_int space_id manifest_path p) <> Ok tt.
Proof.
  intros L I P. unfold push, load_application_manifests.
  unfold bind at 1. rewrite L. unfold bind at 1.
  destruct (_retrieve_space_and_organization space_id p)
    as [[[organization space]|x] q]; [|discriminate].
  clear L. revert q. induction l as [|e' l IH]; intros q; [contradiction|].
  simpl. unfold bind.
  destruct (push_entry urlparse py_int organization space e' q)
    as [[[]|x] q'] eqn:E; [|discriminate].
  destruct I as [->|I].
  - pose proof (push_entry_path_fails organization space e q P) as H.
    rewrite E in H. now contradiction H.
  - now apply IH.
Qed.

End RouteFrame.

(** ** Instances of the further properties *)

(** X1 for the TCP route of the scenarios. *)
Lemma split_route_domain_and_port_witness :
  _split_route CPython.urlparse CPython.int
    (requested "//tcp-domain.example.com:4444")
  = Ok ("tcp-domain.example.com", VInt 4444, "").
Proof.
  apply (split_route_domain_and_port CPython.urlparse CPython.int
           (requested "//tcp-domain.example.com:4444")
           (VStr "//tcp-domain.example.com:4444")
           "tcp-domain.example.com" "4444" 4444 "");
    [reflexivity | reflexivity | discriminate | reflexivity | simpl; lia
    | reflexivity].
Defined.

(** X2 for a port of one digit. *)
Lemma split_route_invalid_format_witness :
  _split_route CPython.urlparse CPython.int (requested "//a.example.com:8")
  = Raise (AssertionError (InvalidRouteFormat (requested "//a.example.com:8"))).
Proof.
  apply (split_route_invalid_format CPython.urlparse CPython.int
           (requested "//a.example.com:8") (VStr "//a.example.com:8")
           "a.example.com" "8" "");
    [reflexivity | reflexivity | reflexivity | right; simpl; lia].
Defined.

(** X3 for the TCP route of the scenarios. *)
Lemma split_route_result_witness :
  "" <> "/"
  /\ str_contains ":" "tcp-domain.example.com" = false
  /\ (VInt 4444 = VNone \/ exists n, VInt 4444 = VInt n).
Proof.
  apply (split_route_result CPython.urlparse CPython.int
           (requested "//tcp-domain.example.com:4444")
           "tcp-domain.example.com" (VInt 4444) "").
  reflexivity.
Defined.

(** X4 for a host on the shared domain of the scenarios. *)
Lemma resolve_domain_sound_witness :
  exists h n,
    VStr "myhost" = VStr h /\ VStr "shared.example.com" = VStr n
    /\ (assoc_get n [] = Some (to_json shared_domain)
        \/ assoc_get n [("shared.example.com", to_json shared_domain)]
           = Some (to_json shared_domain))
    /\ ((h = "" /\ n = "myhost.shared.example.com")
        \/ (h <> "" /\ "myhost.shared.example.com" = h ++ "." ++ n
            /\ str_contains "." h = false)).
Proof.
  apply (resolve_domain_sound "myhost.shared.example.com" []
           [("shared.example.com", to_json shared_domain)]
           (VStr "myhost") (VStr "shared.example.com")
           (to_json shared_domain)).
  reflexivity.
Defined.

(** X6 for the TCP route of the scenarios. *)
Lemma port_route_outcome_witness :
  requested_route_body CPython.urlparse CPython.int []
    [("tcp-domain.example.com", to_json tcp_domain)]
    (to_json space) (to_json app) []
    (requested "//tcp-domain.example.com:4444") fresh_platform
  = (Raise (AssertionError
              (PortAndHost (requested "//tcp-domain.example.com:4444")
                 (VStr "tcp-domain.example.com"))), fresh_platform).
Proof.
  apply (port_route_outcome CPython.urlparse CPython.int []
           [("tcp-domain.example.com", to_json tcp_domain)]
           (to_json space) (to_json app) []
           (requested "//tcp-domain.example.com:4444")
           "tcp-domain.example.com" 4444 "" fresh_platform).
  reflexivity.
Defined.

(** X7 for the TCP domain of the scenarios, without port. *)
Lemma tcp_domain_requires_port_witness :
  requested_route_body CPython.urlparse CPython.int []
    [("tcp-domain.example.com", to_json tcp_domain)]
    (to_json space) (to_json app) []
    (requested "//tcp-domain.example.com") fresh_platform
  = (Raise (AssertionError
              (PortMissing (requested "//tcp-domain.example.com"))),
     fresh_platform).
Proof.
  apply (tcp_domain_requires_port CPython.urlparse CPython.int []
           [("tcp-domain.example.com", to_json tcp_domain)]
           (to_json space) (to_json app) []
           (requested "//tcp-domain.example.com")
           "tcp-domain.example.com" "" (VStr "")
           (VStr "tcp-domain.example.com") (to_json tcp_domain) (VStr "tcp")
           fresh_platform); reflexivity.
Defined.

(** X8 for a host route, when the application has a TCP route only. *)
Lemma host_route_passed_over_witness :
  requested_route_body CPython.urlparse CPython.int []
    [("shared.example.com", to_json shared_domain)]
    (to_json space) (to_json app)
    [to_json (route "route-2" "domain-tcp" "" (VInt 4444))]
    (requested "//myhost.shared.example.com/custom") routed_platform
  = (Ok tt, routed_platform).
Proof.
  apply (host_route_passed_over CPython.urlparse CPython.int []
           [("shared.example.com", to_json shared_domain)]
           (to_json space) (to_json app)
           (route "route-2" "domain-tcp" "" (VInt 4444)) []
           (requested "//myhost.shared.example.com/custom")
           "myhost.shared.example.com" "/custom" (VStr "myhost")
           (VStr "shared.example.com") shared_domain (VStr "domain-tcp")
           (VStr "") routed_platform); reflexivity.
Defined.

(** X9 for a [docker] block without image. *)
Lemma request_has_no_docker_key_witness :
  assoc_get "docker" [("name", VStr "app")] = None
  /\ fresh_platform = fresh_platform.
Proof.
  apply (request_has_no_docker_key
           (VDict [("name", VStr "app");
                   ("docker", VDict [("username", VStr "user")])])
           [("name", VStr "app")] fresh_platform fresh_platform).
  reflexivity.
Defined.

(** X10 for the docker entry of the scenarios. *)
Lemma docker_image_request_witness :
  exists request,
    _build_request_from_manifest docker_entry fresh_platform
    = (Ok request, fresh_platform)
    /\ assoc_get "docker_image" request = Some (VStr "image")
    /\ assoc_get "diego" request = Some (VBool true)
    /\ assoc_get "docker_credentials" request = None
    /\ forall k,
         k <> "docker" -> k <> "docker_image" -> k <> "diego" ->
         k <> "docker_credentials" ->
         assoc_get k request
         = assoc_get k [("name", VStr "app");
                        ("docker", VDict [("image", VStr "image")])].
Proof.
  apply (docker_image_request
           [("name", VStr "app"); ("docker", VDict [("image", VStr "image")])]
           [("image", VStr "image")] (VStr "image") fresh_platform);
    [repeat constructor; simpl; intuition discriminate
    | reflexivity | reflexivity | reflexivity].
Defined.

(** X11 for a [docker] block with a user name only. *)
Lemma docker_block_without_image_dropped_witness :
  exists request,
    _build_request_from_manifest
      (VDict [("name", VStr "app");
              ("docker", VDict [("username", VStr "user")])])
      fresh_platform
    = (Ok request, fresh_platform)
    /\ assoc_get "docker" request = None
    /\ forall k,
         k <> "docker" ->
         assoc_get k request
         = assoc_get k [("name", VStr "app");
                        ("docker", VDict [("username", VStr "user")])].
Proof.
  apply (docker_block_without_image_dropped
           [("name", VStr "app");
            ("docker", VDict [("username", VStr "user")])]
           (VDict [("username", VStr "user")]) fresh_platform);
    [repeat constructor; simpl; intuition discriminate
    | reflexivity | reflexivity | reflexivity].
Defined.

(** X12 for an entry with an [http] health check and no endpoint. *)
Lemma create_application_request_witness :
  exists request,
    fst (_create_application (to_json space)
           (VDict [("name", VStr "app"); ("health-check-type", VStr "http")])
           fresh_platform)
    = Ok (to_json {| guid := "guid-0"; entity := request |})
    /\ assoc_get "space_guid" request = Some (VStr "space-1")
    /\ assoc_get "health-check-http-endpoint" request = Some (VStr "/").
Proof.
  destruct (create_application_request space
              [("name", VStr "app"); ("health-check-type", VStr "http")]
              fresh_platform)
    as (request & R1 & _ & _ & R4 & R5 & _);
    [repeat constructor; simpl; intuition discriminate
    | reflexivity | reflexivity |].
  exists request. repeat split; assumption.
Defined.

(** X13 for the environments of the scenario of the specification. *)
Lemma merge_environment_lookup_witness :
  exists environment,
    _merge_environment (to_json app)
      (VDict [("name", VStr "app"); ("env", VDict [("B", VStr "2")])])
    = Ok environment
    /\ NoDup (map fst environment)
    /\ forall k,
         assoc_get k environment
         = match assoc_get k [("B", VStr "2")] with
           | Some v => Some v
           | None => assoc_get k [("A", VStr "1")]
           end.
Proof.
  apply (merge_environment_lookup app
           [("name", VStr "app"); ("env", VDict [("B", VStr "2")])]
           [("A", VStr "1")] [("B", VStr "2")]);
    [reflexivity | reflexivity
    | repeat constructor; simpl; intuition discriminate
    | repeat constructor; simpl; intuition discriminate].
Defined.

(** X14 for the update of the scenario of the specification. *)
Lemma update_application_request_witness :
  exists request,
    log (snd (_update_application
                (VDict [("name", VStr "app"); ("env", VDict [("B", VStr "2")])])
                (to_json app) fresh_platform))
    = [apps_update (VStr "app-1") request]
    /\ assoc_get "environment_json" request
       = Some (VDict [("A", VStr "1"); ("B", VStr "2")]).
Proof.
  destruct (update_application_request app
              [("name", VStr "app"); ("env", VDict [("B", VStr "2")])]
              [("A", VStr "1"); ("B", VStr "2")] fresh_platform)
    as (request & R1 & R2 & _);
    [repeat constructor; simpl; intuition discriminate
    | reflexivity | reflexivity | reflexivity |].
  exists request. split; assumption.
Defined.

(** X15 for a service with an instance followed by one without. *)
Lemma bind_services_outcome_witness :
  _bind_services (to_json space) (to_json app)
    (VDict [("name", VStr "app");
            ("services", VList [VStr "db"; VStr "cache"])])
    fresh_platform
  = (Raise (AssertionError (NoService VNone)),
     with_bindings fresh_platform [("app-1", "service-1")]
       [service_bindings_create (VStr "app-1") (VStr "service-1")]).
Proof.
  apply (bind_services_outcome space app
           [("name", VStr "app");
            ("services", VList [VStr "db"; VStr "cache"])]
           [VStr "db"; VStr "cache"] fresh_platform).
  reflexivity.
Defined.

(** X17 for a declared route on an application with routes. *)
Lemma route_application_keeps_associations_witness :
  associations_kept routed_platform
    (snd (route_application (to_json organization) (to_json space)
            (to_json app) (declaring "//myhost.shared.example.com/custom")
            routed_platform)).
Proof.
  apply (route_application_keeps_associations CPython.urlparse CPython.int
           (to_json organization) (to_json space) (to_json app)
           (declaring "//myhost.shared.example.com/custom") (VBool false)
           routed_platform); reflexivity.
Defined.

(** X18 for an entry without routes on an application with routes. *)
Lemma routes_key_required_witness :
  route_application (to_json organization) (to_json space) (to_json app)
    (VDict [("name", VStr "app")]) routed_platform
  = (Raise (KeyError "routes"), routed_platform).
Proof.
  apply (routes_key_required CPython.urlparse CPython.int
           (to_json organization) (to_json space) app
           [("name", VStr "app")] routed_platform);
    [reflexivity | reflexivity | discriminate].
Defined.

(** X19 for a manifest whose only entry has a path. *)
Lemma push_with_path_fails_witness :
  fst (run_push (VStr "space-1") "manifest.yml"
         (pushing (VDict [("name", VStr "app"); ("path", VStr "./app")])))
  <> Ok tt.
Proof.
  apply (push_with_path_fails CPython.urlparse CPython.int (VStr "space-1")
           "manifest.yml"
           [VDict [("name", VStr "app"); ("path", VStr "./app")]]
           (VDict [("name", VStr "app"); ("path", VStr "./app")])
           (pushing (VDict [("name", VStr "app"); ("path", VStr "./app")])));
    [reflexivity | left; reflexivity | reflexivity].
Defined.
